(** * ms-tutorias: the [solicitarTutoria] saga

    A shallow embedding of
    [src/ms-tutorias/src/domain/services/tutoria.service.js].

    The service is one asynchronous function made of a [try] block (the six
    forward steps) and a [catch] block (the compensations).  It talks to
    four modules that are required from elsewhere in the repository
    ([usuarios.client], [agenda.client], [tutoria.repository] and
    [message.producer]); they are taken here as a record of functions from
    the arguments of a call to the way that call ends.

    Modelling conventions.
    - JavaScript values are the inductive [value]: [undefined], [null],
      booleans, integers, strings, dates, [Error] instances and plain
      objects.  An object is a record of data: its fields hold values, not
      functions, and none of them is named as a method of
      [Object.prototype] is, so that a template literal writes it as
      [[object Object]].  An [Error] instance has a [name] and a [message]
      and no other property of its own; an error that carries a
      [statusCode] is an object.
    - Anything can be thrown and a promise can reject with anything: an
      exception is a [value], [undefined] and [null] included.  Reading a
      property of [undefined] or [null] throws a [TypeError], in the [catch]
      block as everywhere else.
    - The clients and the repository return promises; an awaited call either
      resolves with a value or rejects with one.
    - [publishToQueue] is called without [await]: it either returns or
      throws while it is being called.  The promise it may return is
      dropped by the service.  A promise that rejects with nobody to
      handle it is the host's affair (Node.js ends the process by
      default), so [PublishReturned] stands for a call that returns and
      whose promise, if there is one, does not reject.
    - [publishTrackingEvent] returns normally; the line written with
      [console.error] goes to the process's standard error and is not part
      of the trace, but the read of [error.message] it makes is.
    - The text of a date and of a number of 22 digits or more is the
      host's.
    - Every call to a required module is recorded, in order and together
      with the way it ended, in the [trace] of the execution. *)

From Stdlib Require Import ZArith List String Ascii Bool Lia.
From Stdlib Require Import DecimalString.
Import ListNotations.
Local Open Scope string_scope.
Local Open Scope list_scope.

(** ** JavaScript values *)

#[warnings="-register-all"]
Inductive value : Type :=
| VUndefined
| VNull
| VBool (b : bool)
| VNum (n : Z)
| VStr (s : string)
| VDate (v : value)                       (* [new Date(v)] *)
| VError (name message : string)          (* an [Error] instance *)
| VObj (fields : list (string * value)).  (* an object literal *)

(** [!!v] *)
Definition truthy (v : value) : bool :=
  match v with
  | VUndefined | VNull => false
  | VBool b => b
  | VNum n => negb (n =? 0)%Z
  | VStr s => negb (s =? "")
  | VDate _ | VError _ _ | VObj _ => true
  end.

(** [v === undefined || v === null] *)
Definition nullish (v : value) : bool :=
  match v with
  | VUndefined | VNull => true
  | _ => false
  end.

(** [a || b] *)
Definition js_or (a b : value) : value := if truthy a then a else b.

Fixpoint lookup (k : string) (fields : list (string * value)) : option value :=
  match fields with
  | [] => None
  | (k', v) :: rest => if k =? k' then Some v else lookup k rest
  end.

(** [o.k] for an [o] that is neither [undefined] nor [null]; of an [Error]
    only [name] and [message] are kept. *)
Definition prop (o : value) (k : string) : value :=
  match o with
  | VObj fields =>
      match lookup k fields with
      | Some v => v
      | None => VUndefined
      end
  | VError name message =>
      if k =? "message" then VStr message
      else if k =? "name" then VStr name
      else VUndefined
  | _ => VUndefined
  end.

(** Structural equality of values. *)
Fixpoint value_eqb (a b : value) {struct a} : bool :=
  match a, b with
  | VUndefined, VUndefined => true
  | VNull, VNull => true
  | VBool x, VBool y => Bool.eqb x y
  | VNum x, VNum y => (x =? y)%Z
  | VStr x, VStr y => (x =? y)
  | VDate x, VDate y => value_eqb x y
  | VError n m, VError n' m' => (n =? n') && (m =? m')
  | VObj fa, VObj fb =>
      (fix fields_eqb (l1 l2 : list (string * value)) {struct l1} : bool :=
         match l1, l2 with
         | [], [] => true
         | (k1, v1) :: t1, (k2, v2) :: t2 =>
             (k1 =? k2) && value_eqb v1 v2 && fields_eqb t1 t2
         | _, _ => false
         end) fa fb
  | _, _ => false
  end.

(** ** Exceptions *)

(** The object literal [{ statusCode, message }] that the service throws. *)
Definition Exn (statusCode : value) (message : string) : value :=
  VObj [("statusCode", statusCode); ("message", VStr message)].

(** The [TypeError] of reading property [k] of [undefined] or [null]. *)
Definition TypeError (base : string) (k : string) : value :=
  VError "TypeError"
    ("Cannot read properties of " ++ base ++ " (reading '" ++ k ++ "')").

(** How [undefined] and [null] are called in that message. *)
Definition nullish_name (v : value) : string :=
  match v with
  | VNull => "null"
  | _ => "undefined"
  end.

(** ** The required modules *)

(** How an awaited promise settles. *)
Inductive outcome : Type :=
| Resolved (v : value)
| Rejected (e : value).

(** How a call that is not awaited ends. *)
Inductive publish_outcome : Type :=
| PublishReturned              (* returned; its promise, if any, does not reject *)
| PublishThrown (e : value).   (* threw while being called                       *)

Record Collaborators : Type := {
  (* usuarios.client *)
  getUsuario : string -> value -> value -> outcome;
  (* agenda.client *)
  verificarDisponibilidad : value -> value -> value -> outcome;
  bloquearAgenda : value -> value -> value -> outcome;
  cancelarBloqueo : value -> value -> value -> outcome;
  (* tutoria.repository *)
  save : value -> outcome;
  (* message.producer *)
  publishToQueue : string -> value -> publish_outcome;
  (* when both lookups of [Promise.all] reject: does the tutor's reject first? *)
  tutorRejectsFirst : bool;
  (* the clock read by [new Date()], indexed by the number of calls made before *)
  now : nat -> Z;
  (* the host's text of a number that it writes with an exponent *)
  numberText : Z -> string;
  (* the host's text of [new Date(v)] *)
  dateText : value -> string
}.

(** The string a template literal puts in place of [${v}]. *)
Definition to_str (P : Collaborators) (v : value) : string :=
  match v with
  | VUndefined => "undefined"
  | VNull => "null"
  | VBool true => "true"
  | VBool false => "false"
  | VNum n =>
      if (Z.abs n <? 10 ^ 21)%Z then NilZero.string_of_int (Z.to_int n)
      else numberText P n
  | VStr s => s
  | VDate v => dateText P v
  | VError name message =>
      if message =? "" then name
      else if name =? "" then message
      else name ++ ": " ++ message
  | VObj _ => "[object Object]"
  end.

(** A call to a required module, with its arguments. *)
Inductive call : Type :=
| GetUsuario (tipo : string) (id cid : value)
| VerificarDisponibilidad (idTutor fecha cid : value)
| BloquearAgenda (idTutor payload cid : value)
| CancelarBloqueo (idTutor payload cid : value)
| Save (tutoria : value)
| PublishToQueue (queue : string) (payload : value)
| PublishTrackingEvent (event : value).

(** What an execution leaves behind. *)
Inductive entry : Type :=
| Awaited (c : call) (o : outcome)
| Unawaited (c : call) (o : publish_outcome)
| Emitted (c : call).

Definition call_of (x : entry) : call :=
  match x with
  | Awaited c _ | Unawaited c _ | Emitted c => c
  end.

(** ** State and control *)

(** [nuevaTutoria] is the [let] variable declared before the [try]; it is
    assigned in the [try] block and read in the [catch] block.  [trace] is
    what has been observed so far and [ticks] counts its entries: it is the
    index at which the clock is read next. *)
Record state : Type := State {
  nuevaTutoria : value;
  trace : list entry;
  ticks : nat
}.

Definition init : state := State VUndefined [] 0.

(** A computation returns or throws a value. *)
Definition M (A : Type) : Type := state -> (A + value) * state.

Definition ret {A} (a : A) : M A := fun s => (inl a, s).

Definition throw {A} (e : value) : M A := fun s => (inr e, s).

Definition bind {A B} (m : M A) (k : A -> M B) : M B :=
  fun s =>
    match m s with
    | (inl a, s') => k a s'
    | (inr e, s') => (inr e, s')
    end.

Definition try_catch {A} (body : M A) (handler : value -> M A) : M A :=
  fun s =>
    match body s with
    | (inl a, s') => (inl a, s')
    | (inr e, s') => handler e s'
    end.

Declare Scope saga_scope.
Delimit Scope saga_scope with saga.
Notation "x <- m ;; k" := (bind m (fun x => k))
  (at level 100, m at next level, right associativity) : saga_scope.
Notation "m ;; k" := (bind m (fun _ => k))
  (at level 100, right associativity) : saga_scope.
Local Open Scope saga_scope.

Definition record (x : entry) : M unit :=
  fun s => (inl tt, State (nuevaTutoria s) (trace s ++ [x]) (S (ticks s))).

Definition settle (o : outcome) : M value :=
  match o with
  | Resolved v => ret v
  | Rejected e => throw e
  end.

(** [await f(args)] *)
Definition await (c : call) (o : outcome) : M value :=
  record (Awaited c o) ;; settle o.

(** [f(args);] without [await] *)
Definition invoke (c : call) (o : publish_outcome) : M unit :=
  record (Unawaited c o) ;;
  match o with
  | PublishThrown e => throw e
  | PublishReturned => ret tt
  end.

(** [await Promise.all([f(a), g(b)])]: both calls are made, then the first
    rejection wins. *)
Definition await_all2 (c1 : call) (o1 : outcome) (c2 : call) (o2 : outcome)
    (secondRejectsFirst : bool) : M (value * value) :=
  record (Awaited c1 o1) ;;
  record (Awaited c2 o2) ;;
  match o1, o2 with
  | Resolved v1, Resolved v2 => ret (v1, v2)
  | Rejected e1, Resolved _ => throw e1
  | Resolved _, Rejected e2 => throw e2
  | Rejected e1, Rejected e2 => throw (if secondRejectsFirst then e2 else e1)
  end.

(** [o.k]: a [TypeError] when [o] is [undefined] or [null]. *)
Definition member (o : value) (k : string) : M value :=
  if nullish o then throw (TypeError (nullish_name o) k) else ret (prop o k).

Definition assign_nuevaTutoria (v : value) : M unit :=
  fun s => (inl tt, State v (trace s) (ticks s)).

Definition read_nuevaTutoria : M value :=
  fun s => (inl (nuevaTutoria s), s).

(** [a || b] on expressions: [b] is evaluated only when [a] is falsy. *)
Definition or_else (a b : M value) : M value :=
  v <- a ;; if truthy v then ret v else b.

(** [a && b] on expressions: [b] is evaluated only when [a] is truthy. *)
Definition and_then (a b : M value) : M value :=
  v <- a ;; if truthy v then b else ret v.

(** [if (c) throw e;] *)
Definition throw_if (c : bool) (e : value) : M unit :=
  if c then throw e else ret tt.

(** ** tutoria.service.js *)

Module Service.

Record Solicitud : Type := {
  idEstudiante : value;
  idTutor : value;
  fechaSolicitada : value;
  duracionMinutos : value;
  materia : value
}.

Section WithCollaborators.

Variable P : Collaborators.

(** The object literal built by [track]. *)
Definition tracking_event (cid : value) (message : string) (timestamp : Z)
    (status : string) : value :=
  VObj [
    ("service", VStr "MS_Tutorias");
    ("message", VStr message);
    ("cid", cid);
    ("timestamp", VDate (VNum timestamp));
    ("status", VStr status)
  ].

(** [track(cid, message, status = 'INFO')] *)
Definition track (cid : value) (message : string) (status : string) : M unit :=
  fun s =>
    record (Emitted (PublishTrackingEvent
      (tracking_event cid message (now P (ticks s)) status))) s.

Definition INFO : string := "INFO".
Definition ERROR : string := "ERROR".

Definition tutoriaPendiente (d : Solicitud) : value :=
  VObj [
    ("idEstudiante", idEstudiante d);
    ("idTutor", idTutor d);
    ("fecha", VDate (fechaSolicitada d));
    ("materia", materia d);
    ("estado", VStr "PENDIENTE")
  ].

Definition bloqueoPayload (d : Solicitud) : value :=
  VObj [
    ("fechaInicio", fechaSolicitada d);
    ("duracionMinutos", duracionMinutos d);
    ("idEstudiante", idEstudiante d)
  ].

Definition payloadNotificacion (d : Solicitud) (correlationId : value)
    (email nombreEstudiante nombreTutor : value) : value :=
  VObj [
    ("destinatario", email);
    ("asunto", VStr ("Tutoría de " ++ to_str P (materia d) ++ " confirmada"));
    ("cuerpo", VStr ("Hola " ++ to_str P nombreEstudiante ++ ", tu tutoría con "
                       ++ to_str P nombreTutor ++ " ha sido confirmada."));
    ("correlationId", correlationId)
  ].

Definition tutoriaConfirmadaPayload (id : value) : value :=
  VObj [
    ("idTutoria", id);
    ("estado", VStr "CONFIRMADA");
    ("error", VNull)
  ].

Definition cancelacionPayload (d : Solicitud) : value :=
  VObj [
    ("fechaInicio", fechaSolicitada d);
    ("duracionMinutos", duracionMinutos d)
  ].

(** [{ idTutoria, estado: 'FALLIDA', error: error.message }] *)
Definition tutoriaFallidaPayload (id : value) (errorMessage : value) : value :=
  VObj [
    ("idTutoria", id);
    ("estado", VStr "FALLIDA");
    ("error", errorMessage)
  ].

(** The body of the [try]. *)
Definition try_block (d : Solicitud) (correlationId : value) : M value :=
  (* 1. Validación de existencia de usuarios *)
  track correlationId "Validando usuarios..." INFO ;;
  users <- await_all2
    (GetUsuario "estudiantes" (idEstudiante d) correlationId)
    (getUsuario P "estudiantes" (idEstudiante d) correlationId)
    (GetUsuario "tutores" (idTutor d) correlationId)
    (getUsuario P "tutores" (idTutor d) correlationId)
    (tutorRejectsFirst P) ;;
  let '(estudiante, tutor) := users in
  throw_if (negb (truthy estudiante)) (Exn (VNum 404) "Estudiante no encontrado") ;;
  throw_if (negb (truthy tutor)) (Exn (VNum 404) "Tutor no encontrado") ;;
  track correlationId "Usuarios validados exitosamente." INFO ;;
  (* 2. Verificar disponibilidad de agenda *)
  track correlationId "Verificando disponibilidad de agenda..." INFO ;;
  disponible <- await
    (VerificarDisponibilidad (idTutor d) (fechaSolicitada d) correlationId)
    (verificarDisponibilidad P (idTutor d) (fechaSolicitada d) correlationId) ;;
  throw_if (negb (truthy disponible)) (Exn (VNum 409) "Horario no disponible") ;;
  track correlationId "Agenda disponible." INFO ;;
  (* 3. Crear tutoría en estado PENDIENTE *)
  track correlationId "Creando tutoría en estado PENDIENTE..." INFO ;;
  saved <- await (Save (tutoriaPendiente d)) (save P (tutoriaPendiente d)) ;;
  assign_nuevaTutoria saved ;;
  nueva <- read_nuevaTutoria ;;
  id <- member nueva "idtutoria" ;;
  track correlationId ("Tutoría PENDIENTE creada (ID: " ++ to_str P id ++ ").") INFO ;;
  (* 4. Bloquear horario en ms-agenda (Saga Step 1) *)
  track correlationId "Bloqueando horario en agenda..." INFO ;;
  await (BloquearAgenda (idTutor d) (bloqueoPayload d) correlationId)
        (bloquearAgenda P (idTutor d) (bloqueoPayload d) correlationId) ;;
  track correlationId "Bloqueo de agenda exitoso." INFO ;;
  (* 5. Publicar notificación en RabbitMQ (Saga Step 2) *)
  track correlationId "Publicando evento de notificación..." INFO ;;
  email <- member estudiante "email" ;;
  nombreEstudiante <- or_else (member estudiante "nombrecompleto")
                              (member estudiante "nombreCompleto") ;;
  nombreTutor <- or_else (member tutor "nombrecompleto")
                         (member tutor "nombreCompleto") ;;
  invoke (PublishToQueue "notificaciones_email_queue"
            (payloadNotificacion d correlationId email nombreEstudiante nombreTutor))
         (publishToQueue P "notificaciones_email_queue"
            (payloadNotificacion d correlationId email nombreEstudiante nombreTutor)) ;;
  track correlationId "Evento de notificación enviado." INFO ;;
  (* 6. Confirmar tutoría *)
  track correlationId "Actualizando tutoría a CONFIRMADA..." INFO ;;
  nueva' <- read_nuevaTutoria ;;
  id' <- member nueva' "idtutoria" ;;
  tutoriaConfirmada <- await (Save (tutoriaConfirmadaPayload id'))
                             (save P (tutoriaConfirmadaPayload id')) ;;
  track correlationId "Tutoría CONFIRMADA correctamente." INFO ;;
  ret tutoriaConfirmada.

(** The object thrown at the end of the [catch], for an [error] that is
    neither [undefined] nor [null]. *)
Definition caller_error (error : value) : value :=
  Exn (js_or (prop error "statusCode") (VNum 500))
      ("No se pudo completar la solicitud: " ++ to_str P (prop error "message")).

(** The body of the [catch (error)]. *)
Definition catch_block (d : Solicitud) (correlationId : value) (error : value)
    : M value :=
  (* console.error(`... ERROR: ${error.message}`) *)
  member error "message" ;;
  errorMessage <- member error "message" ;;
  track correlationId ("ERROR: " ++ to_str P errorMessage) ERROR ;;
  (* COMPENSACIÓN: revertir el bloqueo en ms-agenda *)
  track correlationId "Compensación: cancelando bloqueo de agenda..." ERROR ;;
  try_catch
    (await (CancelarBloqueo (idTutor d) (cancelacionPayload d) correlationId)
           (cancelarBloqueo P (idTutor d) (cancelacionPayload d) correlationId) ;;
     track correlationId "Bloqueo de agenda revertido." ERROR)
    (fun cancelError =>
       cancelMessage <- member cancelError "message" ;;
       track correlationId
         ("ERROR CRÍTICO al intentar revertir el bloqueo en agenda: "
            ++ to_str P cancelMessage) ERROR) ;;
  (* COMPENSACIÓN secundaria: marcar tutoría como FALLIDA *)
  guard <- and_then read_nuevaTutoria
                    (nueva <- read_nuevaTutoria ;; member nueva "idtutoria") ;;
  (if truthy guard then
     track correlationId "Marcando tutoría como FALLIDA..." ERROR ;;
     try_catch
       (nueva <- read_nuevaTutoria ;;
        id <- member nueva "idtutoria" ;;
        detail <- member error "message" ;;
        await (Save (tutoriaFallidaPayload id detail))
              (save P (tutoriaFallidaPayload id detail)) ;;
        track correlationId "Tutoría marcada como FALLIDA." ERROR)
       (fun compError =>
          compMessage <- member compError "message" ;;
          track correlationId
            ("ERROR CRÍTICO guardando tutoría FALLIDA: " ++ to_str P compMessage)
            ERROR)
   else ret tt) ;;
  statusCode <- member error "statusCode" ;;
  message <- member error "message" ;;
  throw (Exn (js_or statusCode (VNum 500))
             ("No se pudo completar la solicitud: " ++ to_str P message)).

Definition solicitarTutoria (datosSolicitud : Solicitud) (correlationId : value)
    : M value :=
  try_catch (try_block datosSolicitud correlationId)
            (fun error => catch_block datosSolicitud correlationId error).

End WithCollaborators.

End Service.

(** ** Observing an execution *)

Import Service.

(** The value returned or the value thrown by [solicitarTutoria]. *)
Definition result (P : Collaborators) (d : Solicitud) (cid : value) : value + value :=
  fst (solicitarTutoria P d cid init).

(** The calls it made, in order. *)
Definition calls (P : Collaborators) (d : Solicitud) (cid : value) : list entry :=
  trace (snd (solicitarTutoria P d cid init)).

(** The calls made by its [try] block alone. *)
Definition forward_calls (P : Collaborators) (d : Solicitud) (cid : value)
    : list entry :=
  trace (snd (try_block P d cid init)).

Definition is_bloquear (x : entry) : bool :=
  match call_of x with BloquearAgenda _ _ _ => true | _ => false end.

Definition is_cancelar (x : entry) : bool :=
  match call_of x with CancelarBloqueo _ _ _ => true | _ => false end.

Definition is_save (x : entry) : bool :=
  match call_of x with Save _ => true | _ => false end.

(** [agendaClient.bloquearAgenda] was awaited and resolved. *)
Definition lock_succeeded (tr : list entry) : bool :=
  existsb (fun x => match x with
                    | Awaited (BloquearAgenda _ _ _) (Resolved _) => true
                    | _ => false
                    end) tr.


(** The [estado] of the record given to a [tutoriaRepository.save]. *)
Definition is_save_estado (estado : string) (x : entry) : bool :=
  match call_of x with
  | Save p => match prop p "estado" with VStr s => s =? estado | _ => false end
  | _ => false
  end.

Definition unlock_rejected (tr : list entry) : bool :=
  existsb (fun x => match x with
                    | Awaited (CancelarBloqueo _ _ _) (Rejected _) => true
                    | _ => false
                    end) tr.

Definition mark_failed_rejected (tr : list entry) : bool :=
  existsb (fun x => match x with
                    | Awaited (Save _) (Rejected _) => is_save_estado "FALLIDA" x
                    | _ => false
                    end) tr.

(** A collaborator failed with [undefined] or [null]. *)
Definition failed_with_nothing (x : entry) : bool :=
  match x with
  | Awaited _ (Rejected e) => nullish e
  | Unawaited _ (PublishThrown e) => nullish e
  | _ => false
  end.

(** The tracking events, in order. *)
Definition events (tr : list entry) : list value :=
  flat_map (fun x => match x with
                     | Emitted (PublishTrackingEvent ev) => [ev]
                     | _ => []
                     end) tr.

Definition has_status (status : string) (ev : value) : bool :=
  match prop ev "status" with VStr s => s =? status | _ => false end.

Definition count_status (status : string) (tr : list entry) : nat :=
  List.length (filter (has_status status) (events tr)).

(** The arguments of a call, as written at the call site. *)
Definition args (c : call) : list value :=
  match c with
  | GetUsuario tipo id cid => [VStr tipo; id; cid]
  | VerificarDisponibilidad idTutor fecha cid => [idTutor; fecha; cid]
  | BloquearAgenda idTutor payload cid => [idTutor; payload; cid]
  | CancelarBloqueo idTutor payload cid => [idTutor; payload; cid]
  | Save tutoria => [tutoria]
  | PublishToQueue queue payload => [VStr queue; payload]
  | PublishTrackingEvent event => [event]
  end.

(** [cid] is the argument [v] or the value of one of its fields. *)
Definition holds (cid v : value) : bool :=
  value_eqb v cid
  || match v with
     | VObj fields => existsb (fun kv => value_eqb (snd kv) cid) fields
     | _ => false
     end.

(** The call is given [cid]. *)
Definition carries (cid : value) (c : call) : bool := existsb (holds cid) (args c).

(** An entry of the trace is the tracking event of a given message and
    status, whatever its timestamp. *)
Inductive tracked (cid : value) (message status : string) : entry -> Prop :=
| tracked_at (timestamp : Z) :
    tracked cid message status
      (Emitted (PublishTrackingEvent (tracking_event cid message timestamp status))).

(** The handler of a compensation reads the [message] of what it caught:
    it throws when the compensation rejected with [undefined] or [null]. *)
Definition lost (o : outcome) : bool :=
  match o with
  | Resolved _ => false
  | Rejected e => nullish e
  end.

(** What the [catch] block reports about the unlock. *)
Definition unlock_report (P : Collaborators) (o : outcome) : string :=
  match o with
  | Resolved _ => "Bloqueo de agenda revertido."
  | Rejected cancelError =>
      "ERROR CRÍTICO al intentar revertir el bloqueo en agenda: "
        ++ to_str P (prop cancelError "message")
  end.

(** What it reports about the save of the FALLIDA record. *)
Definition mark_report (P : Collaborators) (o : outcome) : string :=
  match o with
  | Resolved _ => "Tutoría marcada como FALLIDA."
  | Rejected compError =>
      "ERROR CRÍTICO guardando tutoría FALLIDA: "
        ++ to_str P (prop compError "message")
  end.

(** The test [nuevaTutoria && nuevaTutoria.idtutoria]. *)
Definition marks_failed (nueva : value) : bool :=
  truthy (if truthy nueva then prop nueva "idtutoria" else nueva).

(** The entries left by the second compensation and what is thrown after
    it. *)
Inductive mark_failed_entries (P : Collaborators) (cid : value) (error : value)
    (nueva : value) : list entry -> value -> Prop :=
| mark_skipped :
    marks_failed nueva = false ->
    mark_failed_entries P cid error nueva [] (caller_error P error)
| mark_attempted (e4 e5 : entry) (o : outcome) :
    marks_failed nueva = true ->
    save P (tutoriaFallidaPayload (prop nueva "idtutoria") (prop error "message")) = o ->
    lost o = false ->
    tracked cid "Marcando tutoría como FALLIDA..." ERROR e4 ->
    tracked cid (mark_report P o) ERROR e5 ->
    mark_failed_entries P cid error nueva
      [e4;
       Awaited (Save (tutoriaFallidaPayload (prop nueva "idtutoria")
                        (prop error "message"))) o;
       e5]
      (caller_error P error)
| mark_lost (e4 : entry) (compError : value) :
    marks_failed nueva = true ->
    save P (tutoriaFallidaPayload (prop nueva "idtutoria") (prop error "message"))
      = Rejected compError ->
    nullish compError = true ->
    tracked cid "Marcando tutoría como FALLIDA..." ERROR e4 ->
    mark_failed_entries P cid error nueva
      [e4;
       Awaited (Save (tutoriaFallidaPayload (prop nueva "idtutoria")
                        (prop error "message")))
               (Rejected compError)]
      (TypeError (nullish_name compError) "message").

(** The entries left by the [catch] block and what it throws: nothing but
    a [TypeError] when [error] is [undefined] or [null]; else two events,
    the unlock and its report, then the second compensation. *)
Inductive compensation (P : Collaborators) (d : Solicitud) (cid : value)
    (error : value) (nueva : value) : list entry -> value -> Prop :=
| compensation_none :
    nullish error = true ->
    compensation P d cid error nueva [] (TypeError (nullish_name error) "message")
| compensation_unlock_lost (e1 e2 : entry) (cancelError : value) :
    nullish error = false ->
    tracked cid ("ERROR: " ++ to_str P (prop error "message")) ERROR e1 ->
    tracked cid "Compensación: cancelando bloqueo de agenda..." ERROR e2 ->
    cancelarBloqueo P (idTutor d) (cancelacionPayload d) cid = Rejected cancelError ->
    nullish cancelError = true ->
    compensation P d cid error nueva
      [e1; e2;
       Awaited (CancelarBloqueo (idTutor d) (cancelacionPayload d) cid)
               (Rejected cancelError)]
      (TypeError (nullish_name cancelError) "message")
| compensation_run (e1 e2 e3 : entry) (o : outcome) (rest : list entry)
    (thrown : value) :
    nullish error = false ->
    tracked cid ("ERROR: " ++ to_str P (prop error "message")) ERROR e1 ->
    tracked cid "Compensación: cancelando bloqueo de agenda..." ERROR e2 ->
    cancelarBloqueo P (idTutor d) (cancelacionPayload d) cid = o ->
    lost o = false ->
    tracked cid (unlock_report P o) ERROR e3 ->
    mark_failed_entries P cid error nueva rest thrown ->
    compensation P d cid error nueva
      (e1 :: e2 ::
       Awaited (CancelarBloqueo (idTutor d) (cancelacionPayload d) cid) o ::
       e3 :: rest)
      thrown.

(** The entries the [try] block can leave. *)
Inductive forward_entry (P : Collaborators) (d : Solicitud) (cid : value)
    : entry -> Prop :=
| fw_track (message : string) (timestamp : Z) :
    forward_entry P d cid
      (Emitted (PublishTrackingEvent (tracking_event cid message timestamp INFO)))
| fw_estudiante (o : outcome) :
    forward_entry P d cid (Awaited (GetUsuario "estudiantes" (idEstudiante d) cid) o)
| fw_tutor (o : outcome) :
    forward_entry P d cid (Awaited (GetUsuario "tutores" (idTutor d) cid) o)
| fw_disponibilidad (o : outcome) :
    forward_entry P d cid
      (Awaited (VerificarDisponibilidad (idTutor d) (fechaSolicitada d) cid) o)
| fw_pendiente (o : outcome) :
    forward_entry P d cid (Awaited (Save (tutoriaPendiente d)) o)
| fw_bloqueo (o : outcome) :
    forward_entry P d cid
      (Awaited (BloquearAgenda (idTutor d) (bloqueoPayload d) cid) o)
| fw_notificacion (email nombreEstudiante nombreTutor : value) (o : publish_outcome) :
    forward_entry P d cid
      (Unawaited
         (PublishToQueue "notificaciones_email_queue"
            (payloadNotificacion P d cid email nombreEstudiante nombreTutor)) o)
| fw_confirmada (id : value) (o : outcome) :
    forward_entry P d cid (Awaited (Save (tutoriaConfirmadaPayload id)) o).

(** The entries the [catch] block can leave. *)
Inductive rollback_entry (d : Solicitud) (cid : value) : entry -> Prop :=
| rb_track (message : string) (timestamp : Z) :
    rollback_entry d cid
      (Emitted (PublishTrackingEvent (tracking_event cid message timestamp ERROR)))
| rb_cancelacion (o : outcome) :
    rollback_entry d cid
      (Awaited (CancelarBloqueo (idTutor d) (cancelacionPayload d) cid) o)
| rb_fallida (id detail : value) (o : outcome) :
    rollback_entry d cid (Awaited (Save (tutoriaFallidaPayload id detail)) o).

(** The call went well: the promise resolved (with an existing user, an
    available slot, a record), the publication returned. *)
Definition succeeded (x : entry) : bool :=
  match x with
  | Awaited (GetUsuario _ _ _) (Resolved v) => truthy v
  | Awaited (VerificarDisponibilidad _ _ _) (Resolved v) => truthy v
  | Awaited (Save _) (Resolved v) => negb (nullish v)
  | Awaited _ (Resolved _) => true
  | Awaited _ (Rejected _) => false
  | Unawaited _ PublishReturned => true
  | Unawaited _ _ => false
  | Emitted _ => true
  end.

Definition all_succeeded (tr : list entry) : bool := forallb succeeded tr.

(** Where a call has its correlation id: the last argument of the clients,
    the field [correlationId] of a payload, the field [cid] of an event. *)
Definition correlation_of (c : call) : value :=
  match c with
  | GetUsuario _ _ cid => cid
  | VerificarDisponibilidad _ _ cid => cid
  | BloquearAgenda _ _ cid => cid
  | CancelarBloqueo _ _ cid => cid
  | Save tutoria => prop tutoria "correlationId"
  | PublishToQueue _ payload => prop payload "correlationId"
  | PublishTrackingEvent event => prop event "cid"
  end.

Definition is_lookup (c : call) : bool :=
  match c with GetUsuario _ _ _ => true | _ => false end.

(** Why the [try] block was left: the value caught by [catch (error)], read
    off the calls of the [try] block.  The cases exclude one another. *)
Inductive proximate_cause (P : Collaborators) (d : Solicitud) (cid : value)
    (tr : list entry) : value -> Prop :=
| cause_estudiante (a b : value) :
    In (Awaited (GetUsuario "estudiantes" (idEstudiante d) cid) (Resolved a)) tr ->
    In (Awaited (GetUsuario "tutores" (idTutor d) cid) (Resolved b)) tr ->
    truthy a = false ->
    proximate_cause P d cid tr (Exn (VNum 404) "Estudiante no encontrado")
| cause_tutor (a b : value) :
    In (Awaited (GetUsuario "estudiantes" (idEstudiante d) cid) (Resolved a)) tr ->
    In (Awaited (GetUsuario "tutores" (idTutor d) cid) (Resolved b)) tr ->
    truthy a = true ->
    truthy b = false ->
    proximate_cause P d cid tr (Exn (VNum 404) "Tutor no encontrado")
| cause_estudiante_rejected (e b : value) :
    In (Awaited (GetUsuario "estudiantes" (idEstudiante d) cid) (Rejected e)) tr ->
    In (Awaited (GetUsuario "tutores" (idTutor d) cid) (Resolved b)) tr ->
    proximate_cause P d cid tr e
| cause_tutor_rejected (a e : value) :
    In (Awaited (GetUsuario "estudiantes" (idEstudiante d) cid) (Resolved a)) tr ->
    In (Awaited (GetUsuario "tutores" (idTutor d) cid) (Rejected e)) tr ->
    proximate_cause P d cid tr e
| cause_both_rejected (e1 e2 : value) :
    In (Awaited (GetUsuario "estudiantes" (idEstudiante d) cid) (Rejected e1)) tr ->
    In (Awaited (GetUsuario "tutores" (idTutor d) cid) (Rejected e2)) tr ->
    proximate_cause P d cid tr (if tutorRejectsFirst P then e2 else e1)
| cause_horario (v : value) :
    In (Awaited (VerificarDisponibilidad (idTutor d) (fechaSolicitada d) cid)
                (Resolved v)) tr ->
    truthy v = false ->
    proximate_cause P d cid tr (Exn (VNum 409) "Horario no disponible")
| cause_rejection (c : call) (e : value) :
    In (Awaited c (Rejected e)) tr ->
    is_lookup c = false ->
    proximate_cause P d cid tr e
| cause_publish (c : call) (e : value) :
    In (Unawaited c (PublishThrown e)) tr ->
    proximate_cause P d cid tr e
| cause_no_record (v : value) :
    In (Awaited (Save (tutoriaPendiente d)) (Resolved v)) tr ->
    nullish v = true ->
    proximate_cause P d cid tr (TypeError (nullish_name v) "idtutoria").

Definition is_getUsuario (x : entry) : bool :=
  match call_of x with GetUsuario _ _ _ => true | _ => false end.

Definition is_verificar (x : entry) : bool :=
  match call_of x with VerificarDisponibilidad _ _ _ => true | _ => false end.

Definition is_publish (x : entry) : bool :=
  match call_of x with PublishToQueue _ _ => true | _ => false end.

(** The lookup of the given kind resolved with a truthy user. *)
Definition user_found (tipo : string) (tr : list entry) : bool :=
  existsb (fun x => match x with
                    | Awaited (GetUsuario t _ _) (Resolved v) => (t =? tipo) && truthy v
                    | _ => false
                    end) tr.

Definition users_exist (tr : list entry) : bool :=
  user_found "estudiantes" tr && user_found "tutores" tr.

(** The availability check resolved with a truthy answer. *)
Definition slot_available (tr : list entry) : bool :=
  existsb (fun x => match x with
                    | Awaited (VerificarDisponibilidad _ _ _) (Resolved v) => truthy v
                    | _ => false
                    end) tr.

(** The PENDIENTE save resolved with something that is not [undefined] or
    [null]. *)
Definition record_created (tr : list entry) : bool :=
  existsb (fun x => match x with
                    | Awaited (Save _) (Resolved v) =>
                        is_save_estado "PENDIENTE" x && negb (nullish v)
                    | _ => false
                    end) tr.

(** [publishToQueue] was called and did not throw. *)
Definition publish_returned (tr : list entry) : bool :=
  existsb (fun x => match x with
                    | Unawaited (PublishToQueue _ _) PublishReturned => true
                    | _ => false
                    end) tr.

(** ** Concrete collaborators *)

Module Examples.

Definition request : Solicitud := {|
  idEstudiante := VNum 11;
  idTutor := VNum 22;
  fechaSolicitada := VStr "2025-06-01T10:00:00Z";
  duracionMinutos := VNum 60;
  materia := VStr "Algebra"
|}.

Definition cid : value := VStr "cid-123".

Definition ana : value :=
  VObj [("email", VStr "ana@uni.edu"); ("nombrecompleto", VStr "Ana Diaz")].

Definition luis : value :=
  VObj [("email", VStr "luis@uni.edu"); ("nombrecompleto", VStr "Luis Rojas")].

Definition estado_is (estado : string) (t : value) : bool :=
  match prop t "estado" with VStr s => s =? estado | _ => false end.

(** A repository that answers with the stored row, whose key is the column
    [idtutoria]. *)
Definition stored (t : value) : outcome :=
  Resolved (VObj [("idtutoria", VNum 7); ("estado", prop t "estado")]).

(** Every service answers and succeeds. *)
Definition all_ok : Collaborators := {|
  getUsuario := fun tipo _ _ =>
    Resolved (if tipo =? "estudiantes" then ana else luis);
  verificarDisponibilidad := fun _ _ _ => Resolved (VBool true);
  bloquearAgenda := fun _ _ _ => Resolved VUndefined;
  cancelarBloqueo := fun _ _ _ => Resolved VUndefined;
  save := stored;
  publishToQueue := fun _ _ => PublishReturned;
  tutorRejectsFirst := false;
  now := fun n => (1000 + Z.of_nat n)%Z;
  numberText := fun _ => "1e+21";
  dateText := fun _ => "Invalid Date"
|}.

Definition with_getUsuario (f : string -> value -> value -> outcome)
    (P : Collaborators) : Collaborators := {|
  getUsuario := f;
  verificarDisponibilidad := verificarDisponibilidad P;
  bloquearAgenda := bloquearAgenda P;
  cancelarBloqueo := cancelarBloqueo P;
  save := save P;
  publishToQueue := publishToQueue P;
  tutorRejectsFirst := tutorRejectsFirst P;
  now := now P;
  numberText := numberText P;
  dateText := dateText P
|}.

Definition with_bloquearAgenda (f : value -> value -> value -> outcome)
    (P : Collaborators) : Collaborators := {|
  getUsuario := getUsuario P;
  verificarDisponibilidad := verificarDisponibilidad P;
  bloquearAgenda := f;
  cancelarBloqueo := cancelarBloqueo P;
  save := save P;
  publishToQueue := publishToQueue P;
  tutorRejectsFirst := tutorRejectsFirst P;
  now := now P;
  numberText := numberText P;
  dateText := dateText P
|}.

Definition with_cancelarBloqueo (f : value -> value -> value -> outcome)
    (P : Collaborators) : Collaborators := {|
  getUsuario := getUsuario P;
  verificarDisponibilidad := verificarDisponibilidad P;
  bloquearAgenda := bloquearAgenda P;
  cancelarBloqueo := f;
  save := save P;
  publishToQueue := publishToQueue P;
  tutorRejectsFirst := tutorRejectsFirst P;
  now := now P;
  numberText := numberText P;
  dateText := dateText P
|}.

Definition with_save (f : value -> outcome) (P : Collaborators) : Collaborators := {|
  getUsuario := getUsuario P;
  verificarDisponibilidad := verificarDisponibilidad P;
  bloquearAgenda := bloquearAgenda P;
  cancelarBloqueo := cancelarBloqueo P;
  save := f;
  publishToQueue := publishToQueue P;
  tutorRejectsFirst := tutorRejectsFirst P;
  now := now P;
  numberText := numberText P;
  dateText := dateText P
|}.

Definition with_publishToQueue (f : string -> value -> publish_outcome)
    (P : Collaborators) : Collaborators := {|
  getUsuario := getUsuario P;
  verificarDisponibilidad := verificarDisponibilidad P;
  bloquearAgenda := bloquearAgenda P;
  cancelarBloqueo := cancelarBloqueo P;
  save := save P;
  publishToQueue := f;
  tutorRejectsFirst := tutorRejectsFirst P;
  now := now P;
  numberText := numberText P;
  dateText := dateText P
|}.

Definition db_down : value := VError "Error" "connection terminated".

(** The update to CONFIRMADA is refused by the database. *)
Definition confirm_fails : Collaborators :=
  with_save (fun t => if estado_is "CONFIRMADA" t then Rejected db_down else stored t)
            all_ok.

(** The update to CONFIRMADA rejects with no reason: [Promise.reject()]. *)
Definition confirm_rejects_with_nothing : Collaborators :=
  with_save (fun t => if estado_is "CONFIRMADA" t then Rejected VUndefined
                      else stored t)
            all_ok.

(** The users service does not know the tutor. *)
Definition tutor_unknown : Collaborators :=
  with_getUsuario (fun tipo _ _ =>
                     Resolved (if tipo =? "estudiantes" then ana else VNull))
                  all_ok.

Definition channel_closed : value := VError "Error" "channel closed".

(** The producer throws when the channel to the broker is closed. *)
Definition publish_throws : Collaborators :=
  with_publishToQueue (fun _ _ => PublishThrown channel_closed) all_ok.

Definition deadlock : value := VError "Error" "deadlock detected".

Definition agenda_down : value := Exn (VNum 503) "agenda unavailable".

(** The confirmation fails and then both compensations fail too. *)
Definition rollback_fails : Collaborators :=
  with_cancelarBloqueo (fun _ _ _ => Rejected agenda_down)
    (with_save (fun t => if estado_is "PENDIENTE" t then stored t
                         else if estado_is "CONFIRMADA" t then Rejected deadlock
                         else Rejected db_down)
       all_ok).

(** The same, but the save of the FALLIDA record rejects with no reason. *)
Definition rollback_fails_with_nothing : Collaborators :=
  with_cancelarBloqueo (fun _ _ _ => Rejected agenda_down)
    (with_save (fun t => if estado_is "PENDIENTE" t then stored t
                         else if estado_is "CONFIRMADA" t then Rejected deadlock
                         else Rejected VUndefined)
       all_ok).

(** The agenda refuses the lock with an error that carries its own status
    code. *)
Definition lock_refused : Collaborators :=
  with_bloquearAgenda (fun _ _ _ => Rejected agenda_down) all_ok.

(** The agenda rejects the lock with no reason. *)
Definition lock_rejects_with_nothing : Collaborators :=
  with_bloquearAgenda (fun _ _ _ => Rejected VUndefined) all_ok.

(** A repository whose rows have the key [idTutoria], as the records sent to
    [save] do, and not [idtutoria]. *)
Definition stored_camel (t : value) : outcome :=
  Resolved (VObj [("idTutoria", VNum 7); ("estado", prop t "estado")]).

(** Such a repository, and the agenda refuses the lock. *)
Definition lock_fails_no_id : Collaborators :=
  with_bloquearAgenda (fun _ _ _ => Rejected agenda_down)
    (with_save stored_camel all_ok).

(** The agenda refuses the lock, unlocks, and the repository then refuses to
    store the FALLIDA record. *)
Definition lock_fails_mark_fails : Collaborators :=
  with_bloquearAgenda (fun _ _ _ => Rejected agenda_down)
    (with_save (fun t => if estado_is "FALLIDA" t then Rejected db_down else stored t)
       all_ok).

(** The users service knows neither the student nor the tutor. *)
Definition nobody_known : Collaborators :=
  with_getUsuario (fun _ _ _ => Resolved VNull) all_ok.

Definition users_down : value := Exn (VNum 503) "usuarios unavailable".

(** The student is unknown and the lookup of the tutor fails. *)
Definition student_unknown_tutor_lookup_fails : Collaborators :=
  with_getUsuario (fun tipo _ _ =>
                     if tipo =? "estudiantes" then Resolved VNull
                     else Rejected users_down)
                  all_ok.

(** A repository whose [save] resolves with nothing. *)
Definition save_returns_nothing : Collaborators :=
  with_save (fun _ => Resolved VUndefined) all_ok.

End Examples.

(** ** Basic facts *)

Lemma truthy_not_nullish (v : value) : truthy v = true -> nullish v = false.
Proof. destruct v; simpl; congruence. Qed.

Lemma member_defined (o : value) (k : string) (s : state) :
  nullish o = false -> member o k s = (inl (prop o k), s).
Proof. intros H; unfold member; now rewrite H. Qed.

Lemma member_nullish (o : value) (k : string) (s : state) :
  nullish o = true -> member o k s = (inr (TypeError (nullish_name o) k), s).
Proof. intros H; unfold member; now rewrite H. Qed.

Lemma or_else_member (o : value) (a b : string) (s : state) :
  nullish o = false ->
  or_else (member o a) (member o b) s = (inl (js_or (prop o a) (prop o b)), s).
Proof.
  intros H; unfold or_else, bind, js_or.
  rewrite member_defined by assumption.
  destruct (truthy (prop o a)); [reflexivity | now apply member_defined].
Qed.

Lemma prop_truthy_object (v : value) (k : string) :
  truthy (prop v k) = true -> truthy v = true.
Proof. destruct v; simpl; congruence. Qed.

Lemma marks_failed_idtutoria (nueva : value) :
  marks_failed nueva = truthy (prop nueva "idtutoria").
Proof.
  unfold marks_failed.
  destruct (truthy nueva) eqn:H; [reflexivity |].
  destruct (truthy (prop nueva "idtutoria")) eqn:H'; [| assumption].
  apply prop_truthy_object in H'; congruence.
Qed.

(** [solicitarTutoria] is its [try] block followed, on an exception, by its
    [catch] block. *)
Lemma solicitarTutoria_unfold P d cid s :
  solicitarTutoria P d cid s =
    match try_block P d cid s with
    | (inl v, s1) => (inl v, s1)
    | (inr e, s1) => catch_block P d cid e s1
    end.
Proof. reflexivity. Qed.

(** ** Symbolic execution *)

#[global] Arguments truthy : simpl never.
#[global] Arguments nullish : simpl never.
#[global] Arguments nullish_name : simpl never.
#[global] Arguments prop : simpl never.
#[global] Arguments to_str : simpl never.
#[global] Arguments js_or : simpl never.
#[global] Arguments String.append : simpl never.

(** Run the program up to its next branching point and split there. *)
Ltac fork :=
  match goal with
  | H : truthy ?v = true |- context [or_else (member ?v ?a) (member ?v ?b) ?s] =>
      rewrite (or_else_member v a b s (truthy_not_nullish v H))
  | H : truthy ?v = true |- context [member ?v ?k ?s] =>
      rewrite (member_defined v k s (truthy_not_nullish v H))
  | H : nullish ?v = false |- context [member ?v ?k ?s] =>
      rewrite (member_defined v k s H)
  | H : nullish ?v = true |- context [member ?v ?k ?s] =>
      rewrite (member_nullish v k s H)
  | |- context [member ?v ?k ?s] => destruct (nullish v) eqn:?
  | |- context [match getUsuario ?P ?a ?b ?c with _ => _ end] =>
      destruct (getUsuario P a b c) eqn:?
  | |- context [match verificarDisponibilidad ?P ?a ?b ?c with _ => _ end] =>
      destruct (verificarDisponibilidad P a b c) eqn:?
  | |- context [match bloquearAgenda ?P ?a ?b ?c with _ => _ end] =>
      destruct (bloquearAgenda P a b c) eqn:?
  | |- context [match cancelarBloqueo ?P ?a ?b ?c with _ => _ end] =>
      destruct (cancelarBloqueo P a b c) eqn:?
  | |- context [match save ?P ?a with _ => _ end] =>
      destruct (save P a) eqn:?
  | |- context [match publishToQueue ?P ?a ?b with _ => _ end] =>
      destruct (publishToQueue P a b) eqn:?
  | |- context [if tutorRejectsFirst ?P then _ else _] =>
      destruct (tutorRejectsFirst P) eqn:?
  | |- context [if truthy ?v then _ else _] => destruct (truthy v) eqn:?
  | |- context [if negb (truthy ?v) then _ else _] => destruct (truthy v) eqn:?
  end.

Ltac unfold_saga :=
  unfold try_block, catch_block, throw_if, track, and_then, await_all2, await,
    invoke, settle, assign_nuevaTutoria, read_nuevaTutoria, record, try_catch,
    bind, ret, throw.

(** From [init] the trace is a closed list and plain computation is enough;
    from an arbitrary state [cbn] keeps the unknown prefix folded. *)
Ltac step_closed :=
  cbv beta iota zeta delta [fst snd app nuevaTutoria trace ticks negb init].

Ltac absurd_path :=
  match goal with
  | H : true = false |- _ => discriminate H
  | H : false = true |- _ => discriminate H
  | H : ?b = true, H' : ?b = false |- _ => rewrite H in H'; discriminate H'
  end.

Ltac explore :=
  unfold_saga; step_closed; repeat (fork; try absurd_path; step_closed).

Ltac explore_open :=
  unfold_saga; cbn; repeat (fork; try absurd_path; cbn).

(** Membership in a list that is written out. *)
Ltac in_list := cbn [In]; solve [repeat first [left; reflexivity | right]].

(** ** The [catch] block *)

Ltac use_truthy :=
  repeat match goal with H : truthy _ = _ |- _ => rewrite H end.

Ltac mark_side :=
  first [ assumption
        | eassumption
        | constructor
        | reflexivity
        | unfold marks_failed; use_truthy; reflexivity ].

(** Whatever the state it starts from, the [catch] block ends by throwing,
    after leaving the entries of a compensation. *)
Lemma catch_block_run P d cid error s :
  exists t thrown n,
    catch_block P d cid error s =
      (inr thrown, State (nuevaTutoria s) (trace s ++ t) n)
    /\ compensation P d cid error (nuevaTutoria s) t thrown.
Proof.
  destruct s as [nueva tr n].
  explore_open.
  all: rewrite <- ?app_assoc; cbn [app].
  all: first
    [ solve [ exists [], (TypeError (nullish_name error) "message"), n;
              rewrite app_nil_r; split; [reflexivity | now constructor] ]
    | do 3 eexists; split; [reflexivity |] ].
  all: first
    [ solve [ eapply compensation_unlock_lost; mark_side ]
    | eapply compensation_run; try mark_side ].
  all: mark_side.
Qed.

(** ** The [try] block *)

Ltac closed_run :=
  let H := fresh in
  intros H; injection H as <- <-; cbn [trace nuevaTutoria].

Ltac closed_abort :=
  let H := fresh in
  intros H; try discriminate H; injection H as <- <-; cbn [trace nuevaTutoria].

Lemma try_block_entries P d cid r s1 :
  try_block P d cid init = (r, s1) ->
  Forall (forward_entry P d cid) (trace s1).
Proof.
  explore.
  all: closed_run.
  all: repeat constructor.
Qed.

(** ** The whole function *)

Lemma run_success P d cid v s1 :
  try_block P d cid init = (inl v, s1) ->
  result P d cid = inl v /\ calls P d cid = trace s1.
Proof.
  intros H; unfold result, calls.
  rewrite solicitarTutoria_unfold, H; auto.
Qed.

Lemma run_abort P d cid error s1 :
  try_block P d cid init = (inr error, s1) ->
  exists t thrown,
    result P d cid = inr thrown
    /\ calls P d cid = trace s1 ++ t
    /\ compensation P d cid error (nuevaTutoria s1) t thrown.
Proof.
  intros H; unfold result, calls.
  rewrite solicitarTutoria_unfold, H.
  destruct (catch_block_run P d cid error s1) as (t & thrown & n & -> & Ht).
  exists t, thrown; auto.
Qed.

Lemma result_inr_abort P d cid err :
  result P d cid = inr err ->
  exists error s1, try_block P d cid init = (inr error, s1).
Proof.
  destruct (try_block P d cid init) as [[v | error] s1] eqn:H; intros Hr.
  - apply run_success in H as [H _]; congruence.
  - eauto.
Qed.

(** *** The entries of a whole execution *)

Lemma mark_failed_rollback_entries P d cid error nueva rest thrown :
  mark_failed_entries P cid error nueva rest thrown ->
  Forall (rollback_entry d cid) rest.
Proof.
  intros [| e4 e5 o _ _ _ [] [] | e4 compError _ _ _ []]; repeat constructor.
Qed.

Lemma compensation_entries P d cid error nueva t thrown :
  compensation P d cid error nueva t thrown -> Forall (rollback_entry d cid) t.
Proof.
  intros [| e1 e2 cancelError _ [] [] _ _ | e1 e2 e3 o rest thrown' _ [] [] _ _ [] Hrest].
  - constructor.
  - repeat constructor.
  - repeat (constructor; [constructor |]).
    eauto using mark_failed_rollback_entries.
Qed.

(** The calls are those of the [try] block, followed on an exception by
    those of the [catch] block. *)
Lemma calls_split P d cid :
  exists t,
    calls P d cid = forward_calls P d cid ++ t
    /\ Forall (forward_entry P d cid) (forward_calls P d cid)
    /\ Forall (rollback_entry d cid) t
    /\ match fst (try_block P d cid init) with
       | inl v => result P d cid = inl v /\ t = []
       | inr error =>
           exists thrown,
             result P d cid = inr thrown
             /\ compensation P d cid error
                  (nuevaTutoria (snd (try_block P d cid init))) t thrown
       end.
Proof.
  unfold forward_calls.
  destruct (try_block P d cid init) as [[v | error] s1] eqn:HT; cbn [fst snd].
  - destruct (run_success _ _ _ _ _ HT) as [-> ->].
    exists []; rewrite app_nil_r; repeat split; eauto using try_block_entries.
  - destruct (run_abort _ _ _ _ _ HT) as (t & thrown & -> & -> & Ht).
    exists t; repeat split;
      eauto using try_block_entries, compensation_entries.
Qed.

Lemma calls_entries P d cid x :
  In x (calls P d cid) -> forward_entry P d cid x \/ rollback_entry d cid x.
Proof.
  destruct (calls_split P d cid) as (t & -> & Hfw & Hrb & _).
  rewrite Forall_forall in Hfw, Hrb.
  intros [Hin | Hin]%in_app_or; auto.
Qed.

(** *** Lists *)

Lemma existsb_filter_nil {A} (f : A -> bool) (l : list A) :
  existsb f l = false <-> filter f l = [].
Proof.
  induction l as [| a l IH]; cbn; [tauto |].
  destruct (f a); cbn; [split; discriminate | exact IH].
Qed.

Lemma existsb_app_l {A} (f : A -> bool) (l t : list A) :
  existsb f l = true -> existsb f (l ++ t) = true.
Proof. intros H; rewrite existsb_app, H; reflexivity. Qed.

Lemma existsb_impl {A} (f g : A -> bool) (l : list A) :
  (forall x, f x = true -> g x = true) ->
  existsb f l = true -> existsb g l = true.
Proof.
  intros Hfg (x & Hin & Hx)%existsb_exists.
  apply existsb_exists; eauto.
Qed.

Lemma rollback_filter_nil (f : entry -> bool) d cid t :
  (forall x, rollback_entry d cid x -> f x = false) ->
  Forall (rollback_entry d cid) t ->
  filter f t = [].
Proof.
  intros Hf; induction 1 as [| x t Hx _ IH]; [reflexivity |].
  cbn [filter]; now rewrite (Hf x Hx).
Qed.

(** A kind of call that the [catch] block never makes is made, if at all,
    by the [try] block. *)
Lemma filter_calls_forward (f : entry -> bool) P d cid :
  (forall x, rollback_entry d cid x -> f x = false) ->
  filter f (calls P d cid) = filter f (forward_calls P d cid).
Proof.
  intros Hf; destruct (calls_split P d cid) as (t & -> & _ & Ht & _).
  now rewrite filter_app, (rollback_filter_nil f d cid t Hf Ht), app_nil_r.
Qed.

Lemma existsb_calls_forward (f : entry -> bool) P d cid :
  (forall x, rollback_entry d cid x -> f x = false) ->
  existsb f (calls P d cid) = existsb f (forward_calls P d cid).
Proof.
  intros Hf.
  destruct (existsb f (forward_calls P d cid)) eqn:E.
  - destruct (calls_split P d cid) as (t & -> & _); now apply existsb_app_l.
  - apply existsb_filter_nil; rewrite filter_calls_forward by assumption.
    now apply existsb_filter_nil.
Qed.

Lemma existsb_forward_calls (g : entry -> bool) P d cid :
  existsb g (forward_calls P d cid) = true -> existsb g (calls P d cid) = true.
Proof.
  intros H; destruct (calls_split P d cid) as (t & -> & _); now apply existsb_app_l.
Qed.

Lemma forward_calls_of P d cid r s1 :
  try_block P d cid init = (r, s1) -> forward_calls P d cid = trace s1.
Proof. intros H; unfold forward_calls; now rewrite H. Qed.

(** *** Failures with a value *)

(** What the [try] block throws is [undefined] or [null] only if a
    collaborator failed with it. *)
Lemma try_block_cause_defined P d cid error s1 :
  try_block P d cid init = (inr error, s1) ->
  existsb failed_with_nothing (trace s1) = false ->
  nullish error = false.
Proof.
  explore.
  all: closed_abort.
  all: intros Hok; cbv -[nullish] in Hok; try reflexivity.
  all: try (destruct (tutorRejectsFirst P)).
  all: repeat match type of Hok with
              | (if nullish ?e then _ else _) = _ =>
                  destruct (nullish e) eqn:?; try discriminate Hok
              end.
  all: assumption.
Qed.

Lemma mark_failed_clean P cid error nueva rest thrown :
  mark_failed_entries P cid error nueva rest thrown ->
  existsb failed_with_nothing rest = false ->
  thrown = caller_error P error.
Proof.
  intros [| e4 e5 o _ _ _ _ _ | e4 compError _ _ Hn []]; try reflexivity.
  cbn; rewrite Hn; discriminate.
Qed.

(** When no compensation fails with [undefined] or [null], the [catch]
    block ends with its own [throw]. *)
Lemma compensation_clean P d cid error nueva t thrown :
  compensation P d cid error nueva t thrown ->
  nullish error = false ->
  existsb failed_with_nothing t = false ->
  thrown = caller_error P error.
Proof.
  intros [Hn | e1 e2 cancelError _ [] [] _ Hn | e1 e2 e3 o rest thrown' _ [] [] _ Ho [] Hrest];
    intros He Hok.
  - congruence.
  - cbn in Hok; rewrite Hn in Hok; discriminate Hok.
  - apply (mark_failed_clean _ _ _ _ _ _ Hrest).
    cbn in Hok; destruct o as [v | e]; cbn in Hok; [assumption |].
    now apply orb_false_iff in Hok as [_ Hok].
Qed.

(** An execution in which no collaborator fails with [undefined] or [null]
    and whose [try] block throws [error] ends by throwing the object built
    from [error]. *)
Lemma clean_abort P d cid error :
  fst (try_block P d cid init) = inr error ->
  existsb failed_with_nothing (calls P d cid) = false ->
  nullish error = false /\ result P d cid = inr (caller_error P error).
Proof.
  destruct (try_block P d cid init) as [r s1] eqn:HT; cbn [fst]; intros ->.
  destruct (run_abort _ _ _ _ _ HT) as (t & thrown & -> & -> & Ht).
  rewrite existsb_app; intros [Hfw Hrb]%orb_false_iff.
  pose proof (try_block_cause_defined _ _ _ _ _ HT Hfw) as He.
  split; [assumption |].
  now rewrite (compensation_clean _ _ _ _ _ _ _ Ht He Hrb).
Qed.

(** *** Unlock calls *)

Lemma rollback_existsb_false (f : entry -> bool) d cid t :
  (forall x, rollback_entry d cid x -> f x = false) ->
  Forall (rollback_entry d cid) t ->
  existsb f t = false.
Proof.
  intros Hf Ht; apply existsb_filter_nil; eauto using rollback_filter_nil.
Qed.

Lemma forward_filter_nil (f : entry -> bool) P d cid tr :
  (forall x, forward_entry P d cid x -> f x = false) ->
  Forall (forward_entry P d cid) tr ->
  filter f tr = [].
Proof.
  intros Hf; induction 1 as [| x t Hx _ IH]; [reflexivity |].
  cbn [filter]; now rewrite (Hf x Hx).
Qed.

Lemma forward_not_cancelar P d cid x :
  forward_entry P d cid x -> is_cancelar x = false.
Proof. now intros []. Qed.

Lemma forward_not_fallida P d cid x :
  forward_entry P d cid x -> is_save_estado "FALLIDA" x = false.
Proof. now intros []. Qed.

(** The unlock calls of a [catch] block: none when [error] is [undefined]
    or [null], one otherwise. *)
Lemma compensation_unlocks P d cid error nueva t thrown :
  compensation P d cid error nueva t thrown ->
  filter is_cancelar t =
    if nullish error then []
    else [Awaited (CancelarBloqueo (idTutor d) (cancelacionPayload d) cid)
                  (cancelarBloqueo P (idTutor d) (cancelacionPayload d) cid)].
Proof.
  intros [-> | e1 e2 cancelError -> [] [] -> _
          | e1 e2 e3 o rest thrown' -> [] [] <- _ [] Hrest]; try reflexivity.
  cbn [filter is_cancelar call_of]; f_equal.
  destruct Hrest as [| e4 e5 o' _ _ _ [] [] | e4 compError _ _ _ []]; reflexivity.
Qed.

(** The unlock calls of an execution whose [try] block threw [error]. *)
Lemma abort_unlocks P d cid error :
  fst (try_block P d cid init) = inr error ->
  filter is_cancelar (calls P d cid) =
    if nullish error then []
    else [Awaited (CancelarBloqueo (idTutor d) (cancelacionPayload d) cid)
                  (cancelarBloqueo P (idTutor d) (cancelacionPayload d) cid)].
Proof.
  destruct (try_block P d cid init) as [r s1] eqn:HT; cbn [fst]; intros ->.
  destruct (run_abort _ _ _ _ _ HT) as (t & thrown & _ & -> & Ht).
  rewrite filter_app, (forward_filter_nil is_cancelar P d cid)
    by eauto using try_block_entries, forward_not_cancelar.
  now apply compensation_unlocks in Ht.
Qed.

(** *** After the lock *)


(** *** Why the [try] block was left *)

Ltac both_rejected :=
  match goal with
  | H : tutorRejectsFirst ?P = true |- proximate_cause ?P ?d ?cid ?tr ?e =>
      let C := fresh in
      pose proof (fun e1 => cause_both_rejected P d cid tr e1 e) as C;
      rewrite H in C; eapply C; in_list
  | H : tutorRejectsFirst ?P = false |- proximate_cause ?P ?d ?cid ?tr ?e =>
      let C := fresh in
      pose proof (fun e2 => cause_both_rejected P d cid tr e e2) as C;
      rewrite H in C; eapply C; in_list
  end.

Lemma try_block_cause P d cid error s1 :
  try_block P d cid init = (inr error, s1) ->
  proximate_cause P d cid (trace s1) error.
Proof.
  explore.
  all: closed_abort.
  all: first
    [ solve [eapply cause_estudiante; [in_list | in_list | assumption]]
    | solve [eapply cause_tutor; [in_list | in_list | assumption | assumption]]
    | solve [eapply cause_horario; [in_list | assumption]]
    | solve [eapply cause_no_record; [in_list | assumption]]
    | solve [eapply cause_publish; in_list]
    | solve [eapply cause_estudiante_rejected; in_list]
    | solve [eapply cause_tutor_rejected; in_list]
    | solve [both_rejected]
    | solve [eapply cause_rejection; [in_list | reflexivity]] ].
Qed.

(** Membership in a list that is written out, used as a hypothesis. *)
Ltac split_in :=
  repeat match goal with
         | H : In _ (_ :: _) |- _ =>
             destruct H as [H | H];
             [ try discriminate H; inversion H; subst; clear H | ]
         | H : In _ [] |- _ => destruct H
         end.

Ltac settle_facts :=
  repeat match goal with
         | H : tutorRejectsFirst _ = _ |- _ => rewrite H
         end;
  first [ reflexivity | congruence | discriminate ].

(** The calls of the [try] block leave no choice about the cause. *)
Lemma try_block_cause_unique P d cid error s1 :
  try_block P d cid init = (inr error, s1) ->
  forall e', proximate_cause P d cid (trace s1) e' -> e' = error.
Proof.
  explore.
  all: closed_abort.
  all: intros e' Hc; destruct Hc; split_in; settle_facts.
Qed.

(** *** The error thrown to the caller *)

Lemma length_append (a b : string) :
  String.length (a ++ b) = (String.length a + String.length b)%nat.
Proof.
  induction a as [| c a IH]; [reflexivity |].
  change (S (String.length (a ++ b)) = S (String.length a + String.length b)).
  now rewrite IH.
Qed.

(** The object thrown to the caller is never the value that was caught. *)
Lemma caller_error_fresh P (error : value) : caller_error P error <> error.
Proof.
  intros H; unfold caller_error in H.
  remember (to_str P (prop error "message")) as m eqn:Em.
  remember (js_or (prop error "statusCode") (VNum 500)) as sc eqn:Esc.
  clear Esc; subst error.
  change (m = ("No se pudo completar la solicitud: " ++ m)%string) in Em.
  apply (f_equal String.length) in Em; rewrite length_append in Em.
  cbn [String.length] in Em; lia.
Qed.

(** *** The execution in which everything goes well *)

Lemma all_succeeded_forward (tr t : list entry) :
  all_succeeded (tr ++ t) = true -> all_succeeded tr = true.
Proof.
  unfold all_succeeded; rewrite forallb_app.
  now intros [H _]%andb_true_iff.
Qed.

Ltac use_facts H :=
  repeat match goal with
         | E : truthy ?v = _ |- _ => rewrite E in H
         | E : nullish ?v = _ |- _ => rewrite E in H
         end.

(** When no call of the [try] block went wrong, the block returns what the
    CONFIRMADA save resolved with, after twelve INFO events. *)
Lemma try_block_all_succeeded P d cid r s1 :
  try_block P d cid init = (r, s1) ->
  all_succeeded (trace s1) = true ->
  exists nueva v,
    r = inl v
    /\ In (Awaited (Save (tutoriaPendiente d)) (Resolved nueva)) (trace s1)
    /\ In (Awaited (Save (tutoriaConfirmadaPayload (prop nueva "idtutoria")))
                   (Resolved v)) (trace s1)
    /\ count_status INFO (trace s1) = 12%nat
    /\ count_status ERROR (trace s1) = 0%nat.
Proof.
  explore.
  all: closed_run.
  all: intros Hok; cbn [all_succeeded forallb succeeded andb negb] in Hok.
  all: use_facts Hok; cbn [negb] in Hok.
  all: repeat (let H := fresh in apply andb_true_iff in Hok; destruct Hok as [H Hok]).
  all: try congruence.
  all: do 2 eexists; split; [reflexivity |]; split; [in_list |]; split; [in_list |].
  all: split; reflexivity.
Qed.

(** *** The record kept in [nuevaTutoria] *)

Ltac no_such_entry H :=
  cbn [In] in H;
  repeat match type of H with
         | _ \/ _ => destruct H as [H | H]
         end;
  try contradiction;
  try discriminate H;
  try (unfold tutoriaPendiente, tutoriaConfirmadaPayload, tutoriaFallidaPayload in H;
       discriminate H).

(** [nuevaTutoria] is what the PENDIENTE save resolved with, and is still
    [undefined] if that save was not reached or rejected. *)
Lemma try_block_nuevaTutoria P d cid r s1 :
  try_block P d cid init = (r, s1) ->
  (forall v, In (Awaited (Save (tutoriaPendiente d)) (Resolved v)) (trace s1) ->
             nuevaTutoria s1 = v)
  /\ (nuevaTutoria s1 = VUndefined
      \/ In (Awaited (Save (tutoriaPendiente d)) (Resolved (nuevaTutoria s1)))
            (trace s1)).
Proof.
  explore.
  all: closed_run.
  all: split;
    [ let v := fresh "v" in
      let H := fresh "Hin" in
      intros v H; no_such_entry H; injection H as <-; reflexivity
    | first [left; reflexivity | right; in_list] ].
Qed.

Lemma rollback_not_pendiente d cid x p v :
  rollback_entry d cid x -> x <> Awaited (Save (tutoriaPendiente p)) (Resolved v).
Proof.
  intros [] H; discriminate H.
Qed.

(** In an execution whose [try] block threw, the PENDIENTE save that
    resolved is the one whose record is in [nuevaTutoria]. *)
Lemma abort_pendiente P d cid error s1 v :
  try_block P d cid init = (inr error, s1) ->
  In (Awaited (Save (tutoriaPendiente d)) (Resolved v)) (calls P d cid) ->
  nuevaTutoria s1 = v.
Proof.
  intros HT.
  destruct (run_abort _ _ _ _ _ HT) as (t & thrown & _ & -> & Ht).
  intros [Hin | Hin]%in_app_or.
  - now apply (try_block_nuevaTutoria _ _ _ _ _ HT).
  - apply compensation_entries in Ht; rewrite Forall_forall in Ht.
    now destruct (rollback_not_pendiente d cid _ d v (Ht _ Hin)).
Qed.

(** *** Saves of the FALLIDA record *)

Lemma mark_failed_fallida P cid error nueva rest thrown :
  mark_failed_entries P cid error nueva rest thrown ->
  filter (is_save_estado "FALLIDA") rest =
    if marks_failed nueva
    then [Awaited (Save (tutoriaFallidaPayload (prop nueva "idtutoria")
                           (prop error "message")))
                  (save P (tutoriaFallidaPayload (prop nueva "idtutoria")
                             (prop error "message")))]
    else [].
Proof.
  intros [-> | e4 e5 o -> <- _ [] [] | e4 compError -> <- _ []]; reflexivity.
Qed.

(** The FALLIDA saves of a [catch] block that gets past the unlock. *)
Lemma compensation_fallida P d cid error nueva t thrown :
  compensation P d cid error nueva t thrown ->
  nullish error = false ->
  lost (cancelarBloqueo P (idTutor d) (cancelacionPayload d) cid) = false ->
  filter (is_save_estado "FALLIDA") t =
    if marks_failed nueva
    then [Awaited (Save (tutoriaFallidaPayload (prop nueva "idtutoria")
                           (prop error "message")))
                  (save P (tutoriaFallidaPayload (prop nueva "idtutoria")
                             (prop error "message")))]
    else [].
Proof.
  intros [Hn | e1 e2 cancelError _ [] [] Hc Hn
          | e1 e2 e3 o rest thrown' _ [] [] _ _ [] Hrest] He Hl.
  - congruence.
  - rewrite Hc in Hl; cbn in Hl; congruence.
  - now apply mark_failed_fallida in Hrest.
Qed.

(** The FALLIDA saves of an execution whose [try] block threw [error]. *)
Lemma abort_fallida P d cid error s1 :
  try_block P d cid init = (inr error, s1) ->
  nullish error = false ->
  lost (cancelarBloqueo P (idTutor d) (cancelacionPayload d) cid) = false ->
  filter (is_save_estado "FALLIDA") (calls P d cid) =
    if marks_failed (nuevaTutoria s1)
    then [Awaited (Save (tutoriaFallidaPayload (prop (nuevaTutoria s1) "idtutoria")
                           (prop error "message")))
                  (save P (tutoriaFallidaPayload (prop (nuevaTutoria s1) "idtutoria")
                             (prop error "message")))]
    else [].
Proof.
  intros HT He Hl.
  destruct (run_abort _ _ _ _ _ HT) as (t & thrown & _ & -> & Ht).
  rewrite filter_app, (forward_filter_nil (is_save_estado "FALLIDA") P d cid)
    by eauto using try_block_entries, forward_not_fallida.
  now apply compensation_fallida in Ht.
Qed.

(** Without a record to mark there is no FALLIDA save. *)
Lemma abort_not_marked P d cid error s1 :
  try_block P d cid init = (inr error, s1) ->
  marks_failed (nuevaTutoria s1) = false ->
  filter (is_save_estado "FALLIDA") (calls P d cid) = [].
Proof.
  intros HT Hm.
  destruct (run_abort _ _ _ _ _ HT) as (t & thrown & _ & -> & Ht).
  rewrite filter_app, (forward_filter_nil (is_save_estado "FALLIDA") P d cid)
    by eauto using try_block_entries, forward_not_fallida.
  destruct Ht as [| e1 e2 cancelError _ [] [] _ _
                  | e1 e2 e3 o rest thrown' _ [] [] _ _ [] Hrest]; try reflexivity.
  apply mark_failed_fallida in Hrest; now rewrite Hm in Hrest.
Qed.

(** Every entry of a trace that has no failure with [undefined] or [null]
    is such. *)
Lemma clean_entry (tr : list entry) (x : entry) :
  existsb failed_with_nothing tr = false -> In x tr -> failed_with_nothing x = false.
Proof.
  intros H Hin; destruct (failed_with_nothing x) eqn:E; [| reflexivity].
  rewrite <- H; symmetry; apply existsb_exists; eauto.
Qed.

(** The second compensation of a clean execution: one FALLIDA save,
    reported whichever way it ends. *)
Lemma abort_mark_reported P d cid error s1 :
  try_block P d cid init = (inr error, s1) ->
  existsb failed_with_nothing (calls P d cid) = false ->
  marks_failed (nuevaTutoria s1) = true ->
  exists x,
    In x (calls P d cid)
    /\ tracked cid
         (mark_report P
            (save P (tutoriaFallidaPayload (prop (nuevaTutoria s1) "idtutoria")
                       (prop error "message"))))
         ERROR x.
Proof.
  intros HT Hok Hm.
  destruct (run_abort _ _ _ _ _ HT) as (t & thrown & _ & Hcalls & Ht).
  rewrite Hcalls in Hok |- *.
  rewrite existsb_app in Hok; apply orb_false_iff in Hok as [Hfw Hrb].
  pose proof (try_block_cause_defined _ _ _ _ _ HT Hfw) as He.
  destruct Ht as [Hn | e1 e2 cancelError _ [] [] _ Hn
                  | e1 e2 e3 o rest thrown' _ [] [] _ _ [] Hrest].
  - congruence.
  - cbn in Hrb; rewrite Hn in Hrb; discriminate Hrb.
  - destruct Hrest as [Hno | e4 e5 o' _ <- _ _ H5 | e4 compError _ _ Hn []].
    + congruence.
    + exists e5; split; [| assumption].
      apply in_or_app; right; cbn [In]; tauto.
    + cbn in Hrb; rewrite Hn in Hrb.
      rewrite !orb_true_r in Hrb; discriminate Hrb.
Qed.

(** When nothing fails with [undefined] or [null], the unlock is not
    lost. *)
Lemma clean_unlock P d cid error :
  fst (try_block P d cid init) = inr error ->
  existsb failed_with_nothing (calls P d cid) = false ->
  lost (cancelarBloqueo P (idTutor d) (cancelacionPayload d) cid) = false.
Proof.
  intros HT Hok.
  destruct (clean_abort _ _ _ _ HT Hok) as [He _].
  pose proof (abort_unlocks _ _ _ _ HT) as Hu; rewrite He in Hu.
  destruct (cancelarBloqueo P (idTutor d) (cancelacionPayload d) cid) as [v | e] eqn:Ho;
    [reflexivity |].
  apply (clean_entry _ (Awaited (CancelarBloqueo (idTutor d) (cancelacionPayload d) cid)
                                (Rejected e))) in Hok; [exact Hok |].
  apply (proj1 (filter_In is_cancelar _ _)); rewrite Hu; now left.
Qed.

(** A record given to [save] has an [error] that is not [undefined] or
    [null] only if its [estado] is FALLIDA. *)
Lemma saved_error_only_fallida P d cid p o :
  In (Awaited (Save p) o) (calls P d cid) ->
  nullish (prop p "error") = false -> prop p "estado" = VStr "FALLIDA".
Proof.
  intros [H | H]%calls_entries; inversion H; subst; cbv; congruence.
Qed.

Lemma is_save_estado_prop (estado : string) (p : value) (o : outcome) :
  prop p "estado" = VStr estado -> is_save_estado estado (Awaited (Save p) o) = true.
Proof.
  intros H; unfold is_save_estado; cbn [call_of]; rewrite H.
  apply String.eqb_refl.
Qed.

(** *** Equality of values *)

Lemma value_eqb_refl (v : value) : value_eqb v v = true.
Proof.
  revert v; fix IH 1; intros [| | b | n | s | v | name message | fields];
    cbn [value_eqb].
  - reflexivity.
  - reflexivity.
  - now destruct b.
  - apply Z.eqb_refl.
  - apply String.eqb_refl.
  - apply IH.
  - now rewrite !String.eqb_refl.
  - induction fields as [| [k v] rest IHrest]; [reflexivity |].
    now rewrite String.eqb_refl, IH, IHrest.
Qed.

Lemma holds_self (cid : value) : holds cid cid = true.
Proof. unfold holds; now rewrite value_eqb_refl. Qed.

Lemma holds_field (cid : value) (k : string) (fields : list (string * value)) :
  In (k, cid) fields -> holds cid (VObj fields) = true.
Proof.
  intros Hin; unfold holds; apply orb_true_iff; right.
  apply existsb_exists; exists (k, cid); split; [assumption |].
  apply value_eqb_refl.
Qed.

Lemma carries_arg (cid a : value) (c : call) :
  In a (args c) -> holds cid a = true -> carries cid c = true.
Proof. intros Hin Ha; apply existsb_exists; eauto. Qed.

Lemma carries_last (cid : value) (c : call) :
  In cid (args c) -> carries cid c = true.
Proof. intros Hin; eapply carries_arg; eauto using holds_self. Qed.

Lemma carries_tracking_event cid message timestamp status :
  carries cid (PublishTrackingEvent (tracking_event cid message timestamp status)) = true.
Proof.
  eapply carries_arg; [now left |].
  apply (holds_field cid "cid"); unfold tracking_event; in_list.
Qed.

Lemma forward_carries P d cid x :
  forward_entry P d cid x ->
  is_save x = false ->
  correlation_of (call_of x) = cid /\ carries cid (call_of x) = true.
Proof.
  intros [] Hsave; try discriminate Hsave; (split; [reflexivity |]).
  1: apply carries_tracking_event.
  1-4: apply carries_last; cbn [args call_of]; in_list.
  eapply carries_arg; [cbn [args call_of In]; right; left; reflexivity |].
  apply (holds_field cid "correlationId"); unfold payloadNotificacion; in_list.
Qed.

Lemma rollback_carries d cid x :
  rollback_entry d cid x ->
  is_save x = false ->
  correlation_of (call_of x) = cid /\ carries cid (call_of x) = true.
Proof.
  intros [] Hsave; try discriminate Hsave; (split; [reflexivity |]).
  - apply carries_tracking_event.
  - apply carries_last; cbn [args call_of]; in_list.
Qed.

(** The three records given to [save] have no field for a correlation id. *)
Lemma saved_without_correlation P d cid x :
  In x (calls P d cid) ->
  is_save x = true ->
  exists p, call_of x = Save p
            /\ args (call_of x) = [p]
            /\ lookup "correlationId" (match p with VObj fields => fields | _ => [] end) = None
            /\ lookup "cid" (match p with VObj fields => fields | _ => [] end) = None.
Proof.
  intros [H | H]%calls_entries Hsave; destruct H; try discriminate Hsave;
    eexists; repeat split.
Qed.

(** ** The claims *)

(** C1.  The code at a failing input of the claim: the lock is taken and
    the save of the CONFIRMADA record then rejects with [undefined].  The
    [catch] block reads [error.message] in its first line, which throws a
    [TypeError] before any compensation: [agendaClient.cancelarBloqueo] is
    not called at all and the caller gets the [TypeError]. *)
Theorem C1_no_unlock_when_failure_is_undefined :
  lock_succeeded
    (calls Examples.confirm_rejects_with_nothing Examples.request Examples.cid) = true
  /\ fst (try_block Examples.confirm_rejects_with_nothing Examples.request
            Examples.cid init) = inr VUndefined
  /\ result Examples.confirm_rejects_with_nothing Examples.request Examples.cid =
       inr (VError "TypeError"
                   "Cannot read properties of undefined (reading 'message')")
  /\ filter is_cancelar
       (calls Examples.confirm_rejects_with_nothing Examples.request Examples.cid) = [].
Proof. repeat split. Qed.

(** C2.  The code at a failing input of the claim: the tutor is unknown, the
    execution fails at step 1 with the 404 error, no lock and no save is
    attempted, and yet [agendaClient.cancelarBloqueo] is called. *)
Theorem C2_unlock_called_after_early_failure :
  result Examples.tutor_unknown Examples.request Examples.cid =
    inr (Exn (VNum 404) "No se pudo completar la solicitud: Tutor no encontrado")
  /\ filter is_bloquear (calls Examples.tutor_unknown Examples.request Examples.cid) = []
  /\ filter is_save (calls Examples.tutor_unknown Examples.request Examples.cid) = []
  /\ filter is_cancelar (calls Examples.tutor_unknown Examples.request Examples.cid) =
       [Awaited
          (CancelarBloqueo (VNum 22)
             (VObj [("fechaInicio", VStr "2025-06-01T10:00:00Z");
                    ("duracionMinutos", VNum 60)])
             (VStr "cid-123"))
          (Resolved VUndefined)].
Proof. repeat split. Qed.




(** C4.  The code at a failing input of the claim: the CONFIRMADA save
    rejects with a deadlock error, the unlock rejects, and the save of the
    FALLIDA record rejects with [undefined].  The handler of that save
    reads [compError.message], which throws: the caller gets this
    [TypeError], an error of the rollback, and nothing of the deadlock. *)
Theorem C4_rollback_failure_reaches_caller :
  fst (try_block Examples.rollback_fails_with_nothing Examples.request
         Examples.cid init) = inr Examples.deadlock
  /\ unlock_rejected
       (calls Examples.rollback_fails_with_nothing Examples.request Examples.cid) = true
  /\ mark_failed_rejected
       (calls Examples.rollback_fails_with_nothing Examples.request Examples.cid) = true
  /\ result Examples.rollback_fails_with_nothing Examples.request Examples.cid =
       inr (VError "TypeError"
                   "Cannot read properties of undefined (reading 'message')")
  /\ result Examples.rollback_fails_with_nothing Examples.request Examples.cid <>
       inr (Exn (VNum 500) "No se pudo completar la solicitud: deadlock detected").
Proof.
  split; [reflexivity |]; split; [reflexivity |]; split; [reflexivity |].
  split; [reflexivity |].
  intros H; vm_compute in H; discriminate H.
Qed.

(** C5, as stated, fails: the agenda rejects the lock with an error that has
    a status code of its own, and the caller gets that code, 503, where the
    claim says 500 for any scheduling failure. *)
Lemma C5_counterexample :
  In (Awaited (BloquearAgenda (VNum 22) (bloqueoPayload Examples.request) Examples.cid)
              (Rejected (Exn (VNum 503) "agenda unavailable")))
     (calls Examples.lock_refused Examples.request Examples.cid)
  /\ result Examples.lock_refused Examples.request Examples.cid =
       inr (Exn (VNum 503) "No se pudo completar la solicitud: agenda unavailable")
  /\ VNum 503 <> VNum 500.
Proof.
  split; [| split; [reflexivity | discriminate]].
  vm_compute; in_list.
Qed.

(** C5, amended.  In a failing execution in which no collaborator fails
    with [undefined] or [null], the [try] block was left with one value
    [error], the proximate cause, which the calls of the [try] block
    determine: the 404 of a missing student or tutor when both lookups
    resolved, the 409 of an unavailable slot, the value a collaborator
    failed with, or the [TypeError] of a save that resolved with no record.
    The error thrown to the caller is a new object: its message is the
    text of the cause's [message] behind the fixed prefix and its status
    code is the cause's own when that is truthy, 500 otherwise. *)
Theorem C5_error_fidelity P d cid err :
  existsb failed_with_nothing (calls P d cid) = false ->
  result P d cid = inr err ->
  exists error,
    fst (try_block P d cid init) = inr error
    /\ proximate_cause P d cid (forward_calls P d cid) error
    /\ (forall error',
          proximate_cause P d cid (forward_calls P d cid) error' -> error' = error)
    /\ err =
         Exn (if truthy (prop error "statusCode") then prop error "statusCode"
              else VNum 500)
             ("No se pudo completar la solicitud: " ++ to_str P (prop error "message"))
    /\ err <> error.
Proof.
  intros Hok Hr.
  destruct (result_inr_abort _ _ _ _ Hr) as (error & s1 & HT).
  assert (Hfst : fst (try_block P d cid init) = inr error) by now rewrite HT.
  destruct (clean_abort _ _ _ _ Hfst Hok) as [_ Hres].
  assert (err = caller_error P error) as -> by congruence.
  exists error; unfold forward_calls; rewrite HT; cbn [fst snd].
  repeat split; eauto using try_block_cause, try_block_cause_unique, caller_error_fresh.
Qed.

(** The theorem at the unknown tutor: the cause is the 404 thrown by the
    service itself. *)
Lemma C5_witness :
  exists error,
    fst (try_block Examples.tutor_unknown Examples.request Examples.cid init) = inr error
    /\ proximate_cause Examples.tutor_unknown Examples.request Examples.cid
         (forward_calls Examples.tutor_unknown Examples.request Examples.cid) error
    /\ (forall error',
          proximate_cause Examples.tutor_unknown Examples.request Examples.cid
            (forward_calls Examples.tutor_unknown Examples.request Examples.cid) error' ->
          error' = error)
    /\ Exn (VNum 404) "No se pudo completar la solicitud: Tutor no encontrado" =
         Exn (if truthy (prop error "statusCode") then prop error "statusCode"
              else VNum 500)
             ("No se pudo completar la solicitud: "
                ++ to_str Examples.tutor_unknown (prop error "message"))
    /\ Exn (VNum 404) "No se pudo completar la solicitud: Tutor no encontrado" <> error.
Proof.
  apply (C5_error_fidelity Examples.tutor_unknown Examples.request Examples.cid
           (Exn (VNum 404) "No se pudo completar la solicitud: Tutor no encontrado")).
  - vm_compute; reflexivity.
  - reflexivity.
Defined.

(** C6, as stated, fails on the number of events: in the execution in which
    every call succeeds the tracking sequence has twelve INFO events, two
    for each of the six steps, and not six. *)
Lemma C6_counterexample :
  all_succeeded (calls Examples.all_ok Examples.request Examples.cid) = true
  /\ result Examples.all_ok Examples.request Examples.cid =
       inl (VObj [("idtutoria", VNum 7); ("estado", VStr "CONFIRMADA")])
  /\ count_status INFO (calls Examples.all_ok Examples.request Examples.cid) = 12%nat
  /\ count_status INFO (calls Examples.all_ok Examples.request Examples.cid) <> 6%nat.
Proof. repeat split; vm_compute; discriminate. Qed.

(** C6, amended.  When both users exist, the slot is available and every
    call succeeds, [solicitarTutoria] saves the record
    [{idTutoria, estado: 'CONFIRMADA', error: null}] for the [idtutoria] of
    the record created at step 3 and returns what that save resolved with,
    and the tracking sequence has exactly 12 INFO events and no ERROR
    event. *)
Theorem C6_all_succeeded P d cid :
  all_succeeded (calls P d cid) = true ->
  exists nueva v,
    result P d cid = inl v
    /\ In (Awaited (Save (tutoriaPendiente d)) (Resolved nueva)) (calls P d cid)
    /\ In (Awaited (Save (VObj [("idTutoria", prop nueva "idtutoria");
                                ("estado", VStr "CONFIRMADA");
                                ("error", VNull)]))
                   (Resolved v)) (calls P d cid)
    /\ count_status INFO (calls P d cid) = 12%nat
    /\ count_status ERROR (calls P d cid) = 0%nat.
Proof.
  destruct (try_block P d cid init) as [[v | error] s1] eqn:HT.
  - destruct (run_success _ _ _ _ _ HT) as [-> ->]; intros Hok.
    destruct (try_block_all_succeeded _ _ _ _ _ HT Hok)
      as (nueva & v' & [= <-] & Hpend & Hconf & Hinfo & Herror).
    exists nueva, v; repeat split; assumption.
  - destruct (run_abort _ _ _ _ _ HT) as (t & thrown & _ & -> & Ht); intros Hok.
    apply all_succeeded_forward in Hok.
    destruct (try_block_all_succeeded _ _ _ _ _ HT Hok) as (_ & _ & [=] & _).
Qed.

(** The theorem at the collaborators that all succeed. *)
Lemma C6_witness :
  all_succeeded (calls Examples.all_ok Examples.request Examples.cid) = true
  /\ exists nueva v,
       result Examples.all_ok Examples.request Examples.cid = inl v
       /\ In (Awaited (Save (tutoriaPendiente Examples.request)) (Resolved nueva))
             (calls Examples.all_ok Examples.request Examples.cid)
       /\ In (Awaited (Save (VObj [("idTutoria", prop nueva "idtutoria");
                                   ("estado", VStr "CONFIRMADA");
                                   ("error", VNull)]))
                      (Resolved v))
             (calls Examples.all_ok Examples.request Examples.cid)
       /\ count_status INFO (calls Examples.all_ok Examples.request Examples.cid) = 12%nat
       /\ count_status ERROR (calls Examples.all_ok Examples.request Examples.cid) = 0%nat.
Proof.
  split; [vm_compute; reflexivity |].
  apply (C6_all_succeeded Examples.all_ok Examples.request Examples.cid).
  vm_compute; reflexivity.
Defined.

(** C7, as stated, fails: the PENDIENTE save resolves with a record (whose
    key is [idTutoria]), the lock is refused, and the execution ends without
    any save of a FALLIDA record. *)
Lemma C7_counterexample :
  In (Awaited (Save (tutoriaPendiente Examples.request))
              (Resolved (VObj [("idTutoria", VNum 7); ("estado", VStr "PENDIENTE")])))
     (calls Examples.lock_fails_no_id Examples.request Examples.cid)
  /\ result Examples.lock_fails_no_id Examples.request Examples.cid =
       inr (Exn (VNum 503) "No se pudo completar la solicitud: agenda unavailable")
  /\ filter (is_save_estado "FALLIDA")
       (calls Examples.lock_fails_no_id Examples.request Examples.cid) = [].
Proof.
  split; [| split; reflexivity].
  vm_compute; in_list.
Qed.

(** C7, amended.  Take an execution in which no collaborator fails with
    [undefined] or [null] and whose [try] block throws [error] after the
    PENDIENTE save resolved with a record whose [idtutoria] is truthy.
    Then [save] is called exactly once with a FALLIDA record, which carries
    that [idtutoria] and, as its [error], whatever [error.message] is; if
    this save rejects, the rejection is tracked and the caller still gets
    the error built from [error]; and among the records given to [save]
    only the FALLIDA one can have an [error] that is not [undefined] or
    [null], and it has one exactly when [error.message] is such. *)
Theorem C7_marks_failed_once P d cid error nueva :
  fst (try_block P d cid init) = inr error ->
  existsb failed_with_nothing (calls P d cid) = false ->
  In (Awaited (Save (tutoriaPendiente d)) (Resolved nueva)) (calls P d cid) ->
  truthy (prop nueva "idtutoria") = true ->
  filter (is_save_estado "FALLIDA") (calls P d cid) =
    [Awaited (Save (VObj [("idTutoria", prop nueva "idtutoria");
                          ("estado", VStr "FALLIDA");
                          ("error", prop error "message")]))
             (save P (VObj [("idTutoria", prop nueva "idtutoria");
                            ("estado", VStr "FALLIDA");
                            ("error", prop error "message")]))]
  /\ (forall compError,
        save P (VObj [("idTutoria", prop nueva "idtutoria");
                      ("estado", VStr "FALLIDA");
                      ("error", prop error "message")]) = Rejected compError ->
        (exists x,
            In x (calls P d cid)
            /\ tracked cid
                 ("ERROR CRÍTICO guardando tutoría FALLIDA: "
                    ++ to_str P (prop compError "message"))
                 ERROR x)
        /\ result P d cid =
             inr (Exn (if truthy (prop error "statusCode")
                       then prop error "statusCode" else VNum 500)
                      ("No se pudo completar la solicitud: "
                         ++ to_str P (prop error "message"))))
  /\ (forall p o,
        In (Awaited (Save p) o) (calls P d cid) ->
        (nullish (prop p "error") = false -> prop p "estado" = VStr "FALLIDA")
        /\ (prop p "estado" = VStr "FALLIDA" -> prop p "error" = prop error "message")).
Proof.
  intros HT Hok Hin Hid.
  pose proof (clean_unlock _ _ _ _ HT Hok) as Hl.
  destruct (clean_abort _ _ _ _ HT Hok) as [He Hres].
  destruct (try_block P d cid init) as [r s1] eqn:H; cbn [fst] in HT; subst r.
  pose proof (abort_pendiente _ _ _ _ _ _ H Hin) as Hn.
  assert (Hm : marks_failed (nuevaTutoria s1) = true)
    by (rewrite marks_failed_idtutoria; congruence).
  pose proof (abort_fallida _ _ _ _ _ H He Hl) as Hf.
  pose proof (abort_mark_reported _ _ _ _ _ H Hok Hm) as Hr.
  rewrite Hm in Hf; rewrite Hn in Hf, Hr.
  split; [exact Hf |]; split.
  - intros compError Hrej; split.
    + unfold tutoriaFallidaPayload in Hr; rewrite Hrej in Hr; exact Hr.
    + exact Hres.
  - intros p o Hp; split; [now apply (saved_error_only_fallida P d cid p o) |].
    intros Hestado.
    assert (Hx : In (Awaited (Save p) o)
                    (filter (is_save_estado "FALLIDA") (calls P d cid)))
      by (apply filter_In; split; [assumption | now apply is_save_estado_prop]).
    rewrite Hf in Hx; destruct Hx as [Hx | []].
    injection Hx as <- _; reflexivity.
Qed.

(** The theorem at a refused lock followed by a refused FALLIDA save. *)
Lemma C7_witness :
  filter (is_save_estado "FALLIDA")
    (calls Examples.lock_fails_mark_fails Examples.request Examples.cid) =
    [Awaited (Save (VObj [("idTutoria", VNum 7);
                          ("estado", VStr "FALLIDA");
                          ("error", VStr "agenda unavailable")]))
             (Rejected Examples.db_down)]
  /\ result Examples.lock_fails_mark_fails Examples.request Examples.cid =
       inr (Exn (VNum 503) "No se pudo completar la solicitud: agenda unavailable").
Proof.
  destruct (C7_marks_failed_once
              Examples.lock_fails_mark_fails Examples.request Examples.cid
              Examples.agenda_down
              (VObj [("idtutoria", VNum 7); ("estado", VStr "PENDIENTE")]))
    as (Hsave & Hrej & _).
  - vm_compute; reflexivity.
  - vm_compute; reflexivity.
  - vm_compute; in_list.
  - vm_compute; reflexivity.
  - split; [exact Hsave |].
    exact (proj2 (Hrej Examples.db_down eq_refl)).
Defined.

(** C8, as stated, fails: in the execution in which every call succeeds,
    [tutoriaRepository.save] is called with the record alone, and the
    correlation id is neither an argument of that call nor a field of the
    record. *)
Lemma C8_counterexample :
  In (Awaited (Save (tutoriaPendiente Examples.request))
              (Resolved (VObj [("idtutoria", VNum 7); ("estado", VStr "PENDIENTE")])))
     (calls Examples.all_ok Examples.request Examples.cid)
  /\ carries Examples.cid (Save (tutoriaPendiente Examples.request)) = false
  /\ forallb (fun x => carries Examples.cid (call_of x))
       (calls Examples.all_ok Examples.request Examples.cid) = false.
Proof.
  split; [| split; reflexivity].
  vm_compute; in_list.
Qed.

(** C8, amended.  Every call other than the saves of the record store is
    given the correlation id unchanged: as last argument of the identity
    lookups, the availability check, the lock and the unlock, as field
    [correlationId] of the notification payload, as field [cid] of every
    tracking event.  The saves are given the record alone, which has no
    field for it. *)
Theorem C8_correlation_id_propagated P d cid x :
  In x (calls P d cid) ->
  (is_save x = false ->
     correlation_of (call_of x) = cid /\ carries cid (call_of x) = true)
  /\ (is_save x = true ->
        exists p, call_of x = Save p
                  /\ args (call_of x) = [p]
                  /\ lookup "correlationId"
                       (match p with VObj fields => fields | _ => [] end) = None
                  /\ lookup "cid"
                       (match p with VObj fields => fields | _ => [] end) = None).
Proof.
  intros Hin; split.
  - destruct (calls_entries _ _ _ _ Hin);
      eauto using forward_carries, rollback_carries.
  - now apply (saved_without_correlation P d cid).
Qed.

(** The theorem at the lock call of the execution in which all goes well. *)
Lemma C8_witness :
  correlation_of
    (BloquearAgenda (VNum 22) (bloqueoPayload Examples.request) Examples.cid)
  = Examples.cid
  /\ carries Examples.cid
       (BloquearAgenda (VNum 22) (bloqueoPayload Examples.request) Examples.cid)
     = true.
Proof.
  apply (C8_correlation_id_propagated
           Examples.all_ok Examples.request Examples.cid
           (Awaited
              (BloquearAgenda (VNum 22) (bloqueoPayload Examples.request) Examples.cid)
              (Resolved VUndefined))).
  - vm_compute; in_list.
  - reflexivity.
Defined.

(** C9, as stated, fails: the first event of an execution has the service
    name [MS_Tutorias], not [tutoring-saga], and keeps the correlation id in
    its field [cid]; it has no field [correlationId]. *)
Lemma C9_counterexample :
  exists ev,
    In (Emitted (PublishTrackingEvent ev))
       (calls Examples.all_ok Examples.request Examples.cid)
    /\ prop ev "service" = VStr "MS_Tutorias"
    /\ prop ev "service" <> VStr "tutoring-saga"
    /\ prop ev "correlationId" = VUndefined
    /\ prop ev "cid" = Examples.cid.
Proof.
  exists (tracking_event Examples.cid "Validando usuarios..." 1000 INFO).
  split; [vm_compute; in_list |].
  repeat split; discriminate.
Qed.

(** C9, amended.  Every tracking event emitted during an invocation is an
    object with the fields [service], [message], [cid], [timestamp] and
    [status], in which [service] is [MS_Tutorias], [cid] is the correlation
    id of the invocation and [status] is INFO or ERROR. *)
Theorem C9_tracking_event_shape P d cid ev :
  In (Emitted (PublishTrackingEvent ev)) (calls P d cid) ->
  exists message timestamp status,
    ev = VObj [("service", VStr "MS_Tutorias");
               ("message", VStr message);
               ("cid", cid);
               ("timestamp", VDate (VNum timestamp));
               ("status", VStr status)]
    /\ (status = "INFO" \/ status = "ERROR").
Proof.
  intros [H | H]%calls_entries; inversion H; subst;
    do 3 eexists; split; try reflexivity; auto.
Qed.

(** The theorem at the first event of the execution in which all goes well. *)
Lemma C9_witness :
  exists message timestamp status,
    tracking_event Examples.cid "Validando usuarios..." 1000 INFO =
      VObj [("service", VStr "MS_Tutorias");
            ("message", VStr message);
            ("cid", Examples.cid);
            ("timestamp", VDate (VNum timestamp));
            ("status", VStr status)]
    /\ (status = "INFO" \/ status = "ERROR").
Proof.
  apply (C9_tracking_event_shape Examples.all_ok Examples.request Examples.cid).
  vm_compute; in_list.
Defined.

(** C10.  The code at a failing input of the claim: the PENDIENTE save
    resolves with a record whose [idtutoria] is 7, then the agenda rejects
    the lock with [undefined].  The [catch] block throws at its first line,
    where it reads [error.message]: the execution aborts, the test on
    [nuevaTutoria.idtutoria] is never reached and no FALLIDA record is
    saved, although [idtutoria] is truthy. *)
Theorem C10_record_not_marked_when_failure_is_undefined :
  In (Awaited (Save (tutoriaPendiente Examples.request))
              (Resolved (VObj [("idtutoria", VNum 7); ("estado", VStr "PENDIENTE")])))
     (calls Examples.lock_rejects_with_nothing Examples.request Examples.cid)
  /\ truthy (prop (VObj [("idtutoria", VNum 7); ("estado", VStr "PENDIENTE")])
                  "idtutoria") = true
  /\ fst (try_block Examples.lock_rejects_with_nothing Examples.request
            Examples.cid init) = inr VUndefined
  /\ result Examples.lock_rejects_with_nothing Examples.request Examples.cid =
       inr (VError "TypeError"
                   "Cannot read properties of undefined (reading 'message')")
  /\ existsb (is_save_estado "FALLIDA")
       (calls Examples.lock_rejects_with_nothing Examples.request Examples.cid) = false.
Proof.
  split; [vm_compute; in_list |].
  split; [reflexivity |]; split; [reflexivity |]; split; reflexivity.
Qed.

(** ** Further properties of [solicitarTutoria] *)

(** *** Each step waits for the one before *)

Ltac rewrite_facts :=
  repeat match goal with
         | E : truthy ?v = _ |- context [truthy ?v] => rewrite E
         | E : nullish ?v = _ |- context [nullish ?v] => rewrite E
         end.

Ltac after_step :=
  let H := fresh "Hcall" in
  intros H; cbv -[truthy nullish to_str] in H; try discriminate H;
  cbv -[truthy nullish to_str]; rewrite_facts; repeat split; reflexivity.

(** In the [try] block a call is made only when the step before it went
    well. *)
Lemma try_block_gates P d cid r s1 :
  try_block P d cid init = (r, s1) ->
  (existsb is_verificar (trace s1) = true -> users_exist (trace s1) = true)
  /\ (existsb (is_save_estado "PENDIENTE") (trace s1) = true ->
        users_exist (trace s1) = true /\ slot_available (trace s1) = true)
  /\ (existsb is_bloquear (trace s1) = true -> record_created (trace s1) = true)
  /\ (existsb is_publish (trace s1) = true -> lock_succeeded (trace s1) = true)
  /\ (existsb (is_save_estado "CONFIRMADA") (trace s1) = true ->
        lock_succeeded (trace s1) = true /\ publish_returned (trace s1) = true).
Proof.
  explore.
  all: closed_run.
  all: split; [after_step |]; split; [after_step |]; split; [after_step |]; split; after_step.
Qed.

Lemma forward_gates P d cid :
  (existsb is_verificar (forward_calls P d cid) = true ->
     users_exist (forward_calls P d cid) = true)
  /\ (existsb (is_save_estado "PENDIENTE") (forward_calls P d cid) = true ->
        users_exist (forward_calls P d cid) = true
        /\ slot_available (forward_calls P d cid) = true)
  /\ (existsb is_bloquear (forward_calls P d cid) = true ->
        record_created (forward_calls P d cid) = true)
  /\ (existsb is_publish (forward_calls P d cid) = true ->
        lock_succeeded (forward_calls P d cid) = true)
  /\ (existsb (is_save_estado "CONFIRMADA") (forward_calls P d cid) = true ->
        lock_succeeded (forward_calls P d cid) = true
        /\ publish_returned (forward_calls P d cid) = true).
Proof.
  unfold forward_calls.
  destruct (try_block P d cid init) as [r s1] eqn:H.
  exact (try_block_gates P d cid r s1 H).
Qed.

Lemma users_exist_forward P d cid :
  users_exist (forward_calls P d cid) = true -> users_exist (calls P d cid) = true.
Proof.
  unfold users_exist, user_found.
  intros [H1 H2]%andb_true_iff; apply andb_true_iff; split;
    now apply existsb_forward_calls.
Qed.

Lemma rollback_not_verificar d cid x : rollback_entry d cid x -> is_verificar x = false.
Proof. now intros []. Qed.

Lemma rollback_not_bloquear d cid x : rollback_entry d cid x -> is_bloquear x = false.
Proof. now intros []. Qed.

Lemma rollback_not_publish d cid x : rollback_entry d cid x -> is_publish x = false.
Proof. now intros []. Qed.

Lemma rollback_not_getUsuario d cid x : rollback_entry d cid x -> is_getUsuario x = false.
Proof. now intros []. Qed.

Lemma rollback_not_pendiente_save d cid x :
  rollback_entry d cid x -> is_save_estado "PENDIENTE" x = false.
Proof. now intros []. Qed.

Lemma rollback_not_confirmada_save d cid x :
  rollback_entry d cid x -> is_save_estado "CONFIRMADA" x = false.
Proof. now intros []. Qed.

Lemma lock_succeeded_called (tr : list entry) :
  lock_succeeded tr = true -> existsb is_bloquear tr = true.
Proof.
  apply existsb_impl; intros [[] [] | |]; cbn; congruence.
Qed.

Lemma record_created_saved (tr : list entry) :
  record_created tr = true -> existsb (is_save_estado "PENDIENTE") tr = true.
Proof.
  apply existsb_impl; intros [[] [] | |]; try discriminate.
  now intros [H _]%andb_true_iff.
Qed.

Lemma pendiente_resolved_saved d tr v :
  In (Awaited (Save (tutoriaPendiente d)) (Resolved v)) tr ->
  existsb (is_save_estado "PENDIENTE") tr = true.
Proof. intros Hin; apply existsb_exists; eexists; split; [eassumption | reflexivity]. Qed.

(** A [catch] block that saves has a record to mark. *)
Lemma compensation_saves P d cid error nueva t thrown :
  compensation P d cid error nueva t thrown ->
  existsb is_save t = true -> marks_failed nueva = true.
Proof.
  intros [| e1 e2 cancelError _ [] [] _ _
          | e1 e2 e3 o rest thrown' _ [] [] _ _ [] Hrest]; try discriminate.
  destruct Hrest as [| e4 e5 o' Hm _ _ [] [] | e4 compError Hm _ _ []];
    [discriminate | |]; intros _; exact Hm.
Qed.

(** Whatever is saved, the PENDIENTE record was saved first, by the [try]
    block. *)
Lemma save_needs_pendiente P d cid :
  existsb is_save (calls P d cid) = true ->
  existsb (is_save_estado "PENDIENTE") (forward_calls P d cid) = true.
Proof.
  destruct (calls_split P d cid) as (t & -> & Hfw & Hrb & Hend).
  rewrite existsb_app; intros [H | H]%orb_true_iff.
  - apply existsb_exists in H as (x & Hin & Hx).
    rewrite Forall_forall in Hfw.
    destruct (Hfw x Hin); try discriminate Hx.
    + apply existsb_exists; eexists; split; [eassumption | reflexivity].
    + destruct (forward_gates P d cid) as (_ & _ & Hlock & _ & Hconf).
      apply record_created_saved, Hlock, lock_succeeded_called, Hconf.
      apply existsb_exists; eexists; split; [eassumption | reflexivity].
  - unfold forward_calls in *.
    destruct (try_block P d cid init) as [[v | error] s1] eqn:HT; cbn [fst snd] in *.
    + destruct Hend as [_ ->]; cbn in H; discriminate H.
    + destruct Hend as (thrown & _ & Hc).
      pose proof (compensation_saves _ _ _ _ _ _ _ Hc H) as Hm.
      destruct (try_block_nuevaTutoria _ _ _ _ _ HT) as [_ [Hn | Hn]].
      * rewrite Hn in Hm; discriminate Hm.
      * eauto using pendiente_resolved_saved.
Qed.

(** X1.  The repository is not called at all unless both users exist and the
    slot is available. *)
Theorem no_save_unless_users_and_slot P d cid :
  existsb is_save (calls P d cid) = true ->
  users_exist (calls P d cid) = true /\ slot_available (calls P d cid) = true.
Proof.
  intros H%save_needs_pendiente.
  destruct (forward_gates P d cid) as (_ & Hg & _).
  destruct (Hg H) as [Hu Hs]; split.
  - now apply users_exist_forward.
  - now apply existsb_forward_calls.
Qed.

(** The theorem at the collaborators that all succeed. *)
Lemma no_save_unless_users_and_slot_witness :
  users_exist (calls Examples.all_ok Examples.request Examples.cid) = true
  /\ slot_available (calls Examples.all_ok Examples.request Examples.cid) = true.
Proof.
  apply (no_save_unless_users_and_slot Examples.all_ok Examples.request Examples.cid).
  vm_compute; reflexivity.
Defined.

(** X2.  The availability of the slot is asked only for users that exist. *)
Theorem availability_checked_only_for_known_users P d cid :
  existsb is_verificar (calls P d cid) = true ->
  users_exist (calls P d cid) = true.
Proof.
  rewrite (existsb_calls_forward _ P d cid (rollback_not_verificar d cid)).
  intros H; apply users_exist_forward.
  destruct (forward_gates P d cid) as (Hg & _); auto.
Qed.

(** The theorem at the collaborators that all succeed. *)
Lemma availability_checked_only_for_known_users_witness :
  users_exist (calls Examples.all_ok Examples.request Examples.cid) = true.
Proof.
  apply (availability_checked_only_for_known_users
           Examples.all_ok Examples.request Examples.cid).
  vm_compute; reflexivity.
Defined.

(** X3.  The lock is asked for only after the PENDIENTE save resolved with a
    record. *)
Theorem lock_only_after_record_created P d cid :
  existsb is_bloquear (calls P d cid) = true ->
  record_created (calls P d cid) = true.
Proof.
  rewrite (existsb_calls_forward _ P d cid (rollback_not_bloquear d cid)).
  intros H; apply existsb_forward_calls.
  destruct (forward_gates P d cid) as (_ & _ & Hg & _); auto.
Qed.

(** The theorem at an agenda that refuses the lock. *)
Lemma lock_only_after_record_created_witness :
  record_created (calls Examples.lock_refused Examples.request Examples.cid) = true.
Proof.
  apply (lock_only_after_record_created
           Examples.lock_refused Examples.request Examples.cid).
  vm_compute; reflexivity.
Defined.

(** X4.  The notification is published only after the lock was taken. *)
Theorem notification_only_after_lock P d cid :
  existsb is_publish (calls P d cid) = true ->
  lock_succeeded (calls P d cid) = true.
Proof.
  rewrite (existsb_calls_forward _ P d cid (rollback_not_publish d cid)).
  intros H; apply existsb_forward_calls.
  destruct (forward_gates P d cid) as (_ & _ & _ & Hg & _); auto.
Qed.

(** The theorem at a producer that throws. *)
Lemma notification_only_after_lock_witness :
  lock_succeeded (calls Examples.publish_throws Examples.request Examples.cid) = true.
Proof.
  apply (notification_only_after_lock
           Examples.publish_throws Examples.request Examples.cid).
  vm_compute; reflexivity.
Defined.

(** X5.  The CONFIRMADA record is saved only after the lock was taken and
    [publishToQueue] returned. *)
Theorem confirmation_only_after_lock_and_publish P d cid :
  existsb (is_save_estado "CONFIRMADA") (calls P d cid) = true ->
  lock_succeeded (calls P d cid) = true /\ publish_returned (calls P d cid) = true.
Proof.
  rewrite (existsb_calls_forward _ P d cid (rollback_not_confirmada_save d cid)).
  intros H; destruct (forward_gates P d cid) as (_ & _ & _ & _ & Hg).
  destruct (Hg H); split; now apply existsb_forward_calls.
Qed.

(** The theorem at a repository that refuses the confirmation. *)
Lemma confirmation_only_after_lock_and_publish_witness :
  lock_succeeded (calls Examples.confirm_fails Examples.request Examples.cid) = true
  /\ publish_returned (calls Examples.confirm_fails Examples.request Examples.cid) = true.
Proof.
  apply (confirmation_only_after_lock_and_publish
           Examples.confirm_fails Examples.request Examples.cid).
  vm_compute; reflexivity.
Defined.

(** *** When the unlock is called *)

Lemma unlock_count P d cid :
  List.length (filter is_cancelar (calls P d cid)) =
    match fst (try_block P d cid init) with
    | inl _ => 0%nat
    | inr error => if nullish error then 0%nat else 1%nat
    end.
Proof.
  destruct (fst (try_block P d cid init)) as [v | error] eqn:Hfst.
  - destruct (try_block P d cid init) as [r s1] eqn:HT; cbn [fst] in Hfst; subst r.
    destruct (run_success _ _ _ _ _ HT) as [_ ->].
    now rewrite (forward_filter_nil is_cancelar P d cid)
      by eauto using try_block_entries, forward_not_cancelar.
  - rewrite (abort_unlocks _ _ _ _ Hfst); now destruct (nullish error).
Qed.

(** X6.  [agendaClient.cancelarBloqueo] is never called by an execution
    whose [try] block returns, and is called once by every execution whose
    [try] block throws, except when what is thrown is [undefined] or
    [null]: then the [catch] block throws on reading [error.message],
    before the unlock. *)
Theorem unlock_called_once_per_caught_error P d cid :
  List.length (filter is_cancelar (calls P d cid)) =
    match fst (try_block P d cid init) with
    | inl _ => 0%nat
    | inr error => if nullish error then 0%nat else 1%nat
    end.
Proof. exact (unlock_count P d cid). Qed.

(** *** The events of status ERROR *)

Lemma count_status_app (status : string) (a b : list entry) :
  count_status status (a ++ b) = (count_status status a + count_status status b)%nat.
Proof.
  unfold count_status, events.
  now rewrite flat_map_app, filter_app, length_app.
Qed.

Lemma forward_no_error_event P d cid tr :
  Forall (forward_entry P d cid) tr -> count_status ERROR tr = 0%nat.
Proof.
  induction 1 as [| x tr Hx _ IH]; [reflexivity |].
  change (x :: tr) with ([x] ++ tr); rewrite count_status_app, IH.
  now destruct Hx.
Qed.

Lemma rollback_events_are_errors d cid t :
  Forall (rollback_entry d cid) t -> forallb (has_status ERROR) (events t) = true.
Proof.
  induction 1 as [| x t Hx _ IH]; [reflexivity |].
  destruct Hx; exact IH.
Qed.

(** The events of a [catch] block in which no compensation fails with
    [undefined] or [null]. *)
Lemma compensation_events P d cid error nueva t thrown :
  compensation P d cid error nueva t thrown ->
  nullish error = false ->
  existsb failed_with_nothing t = false ->
  List.length (events t) = if marks_failed nueva then 5%nat else 3%nat.
Proof.
  intros [Hn | e1 e2 cancelError _ [] [] _ Hn
          | e1 e2 e3 o rest thrown' _ [] [] _ _ [] Hrest] He Hok.
  - congruence.
  - cbn in Hok; rewrite Hn in Hok; discriminate Hok.
  - destruct Hrest as [-> | e4 e5 o' -> _ _ [] [] | e4 compError _ _ Hn []];
      try reflexivity.
    cbn in Hok; rewrite Hn, !orb_true_r in Hok; discriminate Hok.
Qed.

Lemma filter_existsb {A} (f : A -> bool) (l : list A) (x : A) :
  filter f l = [x] -> existsb f l = true.
Proof.
  intros H; destruct (existsb f l) eqn:E; [reflexivity |].
  apply existsb_filter_nil in E; congruence.
Qed.

(** In a clean execution the FALLIDA record is saved exactly when there is
    a record to mark. *)
Lemma abort_fallida_saved P d cid error s1 :
  try_block P d cid init = (inr error, s1) ->
  existsb failed_with_nothing (calls P d cid) = false ->
  existsb (is_save_estado "FALLIDA") (calls P d cid) = marks_failed (nuevaTutoria s1).
Proof.
  intros HT Hok.
  assert (Hfst : fst (try_block P d cid init) = inr error) by now rewrite HT.
  destruct (clean_abort _ _ _ _ Hfst Hok) as [He _].
  pose proof (clean_unlock _ _ _ _ Hfst Hok) as Hl.
  pose proof (abort_fallida _ _ _ _ _ HT He Hl) as H.
  destruct (marks_failed (nuevaTutoria s1)).
  - eauto using filter_existsb.
  - now apply existsb_filter_nil.
Qed.

(** X7.  When the [try] block throws, every event emitted from then on has
    the status ERROR, the reports of a compensation that went well
    included, and no event emitted before has it.  If no collaborator
    fails with [undefined] or [null], the events of the [catch] block are
    three, and five when the FALLIDA record was saved. *)
Theorem catch_events_are_errors P d cid error :
  fst (try_block P d cid init) = inr error ->
  exists t,
    calls P d cid = forward_calls P d cid ++ t
    /\ count_status ERROR (forward_calls P d cid) = 0%nat
    /\ forallb (has_status ERROR) (events t) = true
    /\ (existsb failed_with_nothing (calls P d cid) = false ->
        List.length (events t) =
          if existsb (is_save_estado "FALLIDA") (calls P d cid) then 5%nat else 3%nat).
Proof.
  intros Hfst.
  destruct (try_block P d cid init) as [r s1] eqn:HT; cbn [fst] in Hfst; subst r.
  destruct (run_abort _ _ _ _ _ HT) as (t & thrown & _ & Hcalls & Ht).
  exists t; unfold forward_calls; rewrite HT; cbn [snd].
  split; [assumption |]; split;
    [eauto using forward_no_error_event, try_block_entries |]; split;
    [eauto using rollback_events_are_errors, compensation_entries |].
  intros Hok; rewrite (abort_fallida_saved _ _ _ _ _ HT Hok).
  rewrite Hcalls, existsb_app in Hok; apply orb_false_iff in Hok as [Hfw Hrb].
  eauto using compensation_events, try_block_cause_defined.
Qed.

(** The theorem at a refused lock followed by a refused FALLIDA save: five
    events, all of status ERROR. *)
Lemma catch_events_are_errors_witness :
  exists t,
    calls Examples.lock_fails_mark_fails Examples.request Examples.cid =
      forward_calls Examples.lock_fails_mark_fails Examples.request Examples.cid ++ t
    /\ forallb (has_status ERROR) (events t) = true
    /\ List.length (events t) = 5%nat.
Proof.
  destruct (catch_events_are_errors
              Examples.lock_fails_mark_fails Examples.request Examples.cid
              Examples.agenda_down eq_refl) as (t & Hc & _ & Herr & Hn).
  exists t; split; [exact Hc |]; split; [exact Herr |].
  exact (Hn eq_refl).
Defined.

(** *** No call is repeated *)

Ltac count_calls := cbv -[Nat.le to_str]; repeat constructor.

Lemma try_block_counts P d cid r s1 :
  try_block P d cid init = (r, s1) ->
  List.length (filter is_getUsuario (trace s1)) = 2%nat
  /\ (List.length (filter is_verificar (trace s1)) <= 1)%nat
  /\ (List.length (filter is_bloquear (trace s1)) <= 1)%nat
  /\ (List.length (filter is_publish (trace s1)) <= 1)%nat
  /\ (List.length (filter (is_save_estado "PENDIENTE") (trace s1)) <= 1)%nat
  /\ (List.length (filter (is_save_estado "CONFIRMADA") (trace s1)) <= 1)%nat.
Proof.
  explore.
  all: closed_run.
  all: split; [reflexivity |].
  all: repeat split; count_calls.
Qed.

Lemma compensation_fallida_count P d cid error nueva t thrown :
  compensation P d cid error nueva t thrown ->
  (List.length (filter (is_save_estado "FALLIDA") t) <= 1)%nat.
Proof.
  intros [| e1 e2 cancelError _ [] [] _ _
          | e1 e2 e3 o rest thrown' _ [] [] _ _ [] Hrest]; cbn; try lia.
  apply mark_failed_fallida in Hrest; rewrite Hrest.
  destruct (marks_failed nueva); cbn; lia.
Qed.

(** X8.  The saga makes a single attempt: the two lookups are made exactly once
    each, and the availability check, the lock, the unlock, the publication
    and the save of each of the three records at most once. *)
Theorem no_call_is_repeated P d cid :
  List.length (filter is_getUsuario (calls P d cid)) = 2%nat
  /\ (List.length (filter is_verificar (calls P d cid)) <= 1)%nat
  /\ (List.length (filter is_bloquear (calls P d cid)) <= 1)%nat
  /\ (List.length (filter is_cancelar (calls P d cid)) <= 1)%nat
  /\ (List.length (filter is_publish (calls P d cid)) <= 1)%nat
  /\ (List.length (filter (is_save_estado "PENDIENTE") (calls P d cid)) <= 1)%nat
  /\ (List.length (filter (is_save_estado "CONFIRMADA") (calls P d cid)) <= 1)%nat
  /\ (List.length (filter (is_save_estado "FALLIDA") (calls P d cid)) <= 1)%nat.
Proof.
  rewrite (filter_calls_forward _ P d cid (rollback_not_getUsuario d cid)),
    (filter_calls_forward _ P d cid (rollback_not_verificar d cid)),
    (filter_calls_forward _ P d cid (rollback_not_bloquear d cid)),
    (filter_calls_forward _ P d cid (rollback_not_publish d cid)),
    (filter_calls_forward _ P d cid (rollback_not_pendiente_save d cid)),
    (filter_calls_forward _ P d cid (rollback_not_confirmada_save d cid)).
  rewrite unlock_count.
  unfold forward_calls.
  destruct (try_block P d cid init) as [r s1] eqn:HT.
  destruct (try_block_counts _ _ _ _ _ HT) as (H1 & H2 & H3 & H4 & H5 & H6).
  cbn [fst snd]; repeat split; try assumption.
  - destruct r as [v | error]; [| destruct (nullish error)]; lia.
  - destruct r as [v | error].
    + destruct (run_success _ _ _ _ _ HT) as [_ ->].
      rewrite (forward_filter_nil (is_save_estado "FALLIDA") P d cid)
        by eauto using try_block_entries, forward_not_fallida.
      cbn; lia.
    + destruct (run_abort _ _ _ _ _ HT) as (t & thrown & _ & -> & Ht).
      rewrite filter_app, (forward_filter_nil (is_save_estado "FALLIDA") P d cid)
        by eauto using try_block_entries, forward_not_fallida.
      exact (compensation_fallida_count _ _ _ _ _ _ _ Ht).
Qed.

(** *** A confirmed record is final *)

Ltac same_entry H := injection H; intros; subst.

Lemma try_block_confirmed P d cid r s1 :
  try_block P d cid init = (r, s1) ->
  forall id v,
    In (Awaited (Save (tutoriaConfirmadaPayload id)) (Resolved v)) (trace s1) ->
    r = inl v.
Proof.
  explore.
  all: closed_run.
  all: intros id w Hin; no_such_entry Hin; same_entry Hin; reflexivity.
Qed.

Lemma rollback_not_confirmada d cid x id o :
  rollback_entry d cid x -> x <> Awaited (Save (tutoriaConfirmadaPayload id)) o.
Proof. intros [] H; discriminate H. Qed.

Lemma confirmed_forward P d cid id o :
  In (Awaited (Save (tutoriaConfirmadaPayload id)) o) (calls P d cid) ->
  In (Awaited (Save (tutoriaConfirmadaPayload id)) o) (forward_calls P d cid).
Proof.
  destruct (calls_split P d cid) as (t & -> & _ & Hrb & _).
  intros [H | H]%in_app_or; [assumption |].
  rewrite Forall_forall in Hrb.
  now destruct (rollback_not_confirmada d cid _ id o (Hrb _ H)).
Qed.

(** X9.  Once the save of the CONFIRMADA record has resolved, the execution
    returns what it resolved with: the record is not marked FALLIDA and the
    lock is not released. *)
Theorem confirmed_is_final P d cid id v :
  In (Awaited (Save (VObj [("idTutoria", id);
                           ("estado", VStr "CONFIRMADA");
                           ("error", VNull)]))
              (Resolved v))
     (calls P d cid) ->
  result P d cid = inl v
  /\ filter (is_save_estado "FALLIDA") (calls P d cid) = []
  /\ filter is_cancelar (calls P d cid) = [].
Proof.
  intros Hin%confirmed_forward; unfold forward_calls in Hin.
  destruct (try_block P d cid init) as [r s1] eqn:HT; cbn [snd] in Hin.
  pose proof (try_block_confirmed _ _ _ _ _ HT _ _ Hin) as ->.
  destruct (run_success _ _ _ _ _ HT) as [-> ->].
  pose proof (try_block_entries _ _ _ _ _ HT) as Hfw.
  split; [reflexivity |]; split.
  - apply (forward_filter_nil _ P d cid); eauto using forward_not_fallida.
  - apply (forward_filter_nil _ P d cid); eauto using forward_not_cancelar.
Qed.

(** The theorem at the collaborators that all succeed. *)
Lemma confirmed_is_final_witness :
  result Examples.all_ok Examples.request Examples.cid =
    inl (VObj [("idtutoria", VNum 7); ("estado", VStr "CONFIRMADA")])
  /\ filter (is_save_estado "FALLIDA")
       (calls Examples.all_ok Examples.request Examples.cid) = []
  /\ filter is_cancelar (calls Examples.all_ok Examples.request Examples.cid) = [].
Proof.
  apply (confirmed_is_final Examples.all_ok Examples.request Examples.cid (VNum 7)).
  vm_compute; in_list.
Defined.

(** *** What a returning execution has done *)

Lemma try_block_returns P d cid v s1 :
  try_block P d cid init = (inl v, s1) ->
  users_exist (trace s1) = true
  /\ slot_available (trace s1) = true
  /\ record_created (trace s1) = true
  /\ lock_succeeded (trace s1) = true
  /\ publish_returned (trace s1) = true
  /\ count_status INFO (trace s1) = 12%nat
  /\ exists id,
       In (Awaited (Save (tutoriaConfirmadaPayload id)) (Resolved v)) (trace s1).
Proof.
  explore.
  all: closed_abort.
  all: do 6 (split; [cbv -[truthy nullish to_str]; rewrite_facts; reflexivity |]).
  all: eexists; in_list.
Qed.

(** X10.  [solicitarTutoria] returns only after the six steps: both users exist,
    the slot is available, the record was created, the lock taken, the
    notification handed to the producer and the CONFIRMADA save resolved,
    with what is returned; the twelve INFO events were emitted. *)
Theorem returns_only_after_all_steps P d cid v :
  result P d cid = inl v ->
  users_exist (calls P d cid) = true
  /\ slot_available (calls P d cid) = true
  /\ record_created (calls P d cid) = true
  /\ lock_succeeded (calls P d cid) = true
  /\ publish_returned (calls P d cid) = true
  /\ count_status INFO (calls P d cid) = 12%nat
  /\ exists id,
       In (Awaited (Save (VObj [("idTutoria", id);
                                ("estado", VStr "CONFIRMADA");
                                ("error", VNull)]))
                   (Resolved v))
          (calls P d cid).
Proof.
  intros Hr.
  destruct (try_block P d cid init) as [[v' | error] s1] eqn:HT.
  - destruct (run_success _ _ _ _ _ HT) as [Hr' ->].
    assert (v' = v) as -> by congruence.
    exact (try_block_returns _ _ _ _ _ HT).
  - destruct (run_abort _ _ _ _ _ HT) as (t & thrown & Hr' & _); congruence.
Qed.

(** The theorem at the collaborators that all succeed. *)
Lemma returns_only_after_all_steps_witness :
  lock_succeeded (calls Examples.all_ok Examples.request Examples.cid) = true
  /\ count_status INFO
       (calls Examples.all_ok Examples.request Examples.cid) = 12%nat.
Proof.
  destruct (returns_only_after_all_steps
              Examples.all_ok Examples.request Examples.cid
              (VObj [("idtutoria", VNum 7); ("estado", VStr "CONFIRMADA")]) eq_refl)
    as (_ & _ & _ & Hlock & _ & Hinfo & _).
  split; assumption.
Defined.

(** *** The two lookups *)

(** What an execution throws when its [catch] block runs to its end. *)
Lemma abort_result P d cid error s1 :
  try_block P d cid init = (inr error, s1) ->
  nullish error = false ->
  lost (cancelarBloqueo P (idTutor d) (cancelacionPayload d) cid) = false ->
  (marks_failed (nuevaTutoria s1) = true ->
   lost (save P (tutoriaFallidaPayload (prop (nuevaTutoria s1) "idtutoria")
                   (prop error "message"))) = false) ->
  result P d cid = inr (caller_error P error).
Proof.
  intros HT He Hl Hs.
  destruct (run_abort _ _ _ _ _ HT) as (t & thrown & -> & _ & Ht).
  destruct Ht as [Hn | e1 e2 cancelError _ _ _ Hc Hn
                  | e1 e2 e3 o rest thrown' _ _ _ _ _ _ Hrest].
  - congruence.
  - rewrite Hc in Hl; cbn in Hl; congruence.
  - destruct Hrest as [| | e4 compError Hm Hc Hn _]; try reflexivity.
    specialize (Hs Hm); rewrite Hc in Hs; cbn in Hs; congruence.
Qed.

Ltac run_known :=
  unfold_saga; step_closed;
  repeat (match goal with
          | H : getUsuario ?P ?a ?b ?c = _ |- context [getUsuario ?P ?a ?b ?c] =>
              rewrite H
          | H : truthy ?v = _ |- context [truthy ?v] => rewrite H
          | |- context [if tutorRejectsFirst ?P then _ else _] =>
              destruct (tutorRejectsFirst P)
          end; step_closed).

Lemma missing_student_run P d cid estudiante tutor :
  getUsuario P "estudiantes" (idEstudiante d) cid = Resolved estudiante ->
  getUsuario P "tutores" (idTutor d) cid = Resolved tutor ->
  truthy estudiante = false ->
  exists s1,
    try_block P d cid init = (inr (Exn (VNum 404) "Estudiante no encontrado"), s1)
    /\ nuevaTutoria s1 = VUndefined.
Proof.
  intros He Ht Hmissing; run_known; eexists; split; reflexivity.
Qed.

Lemma rejected_lookup_run P d cid v e :
  (getUsuario P "estudiantes" (idEstudiante d) cid = Resolved v
   /\ getUsuario P "tutores" (idTutor d) cid = Rejected e)
  \/ (getUsuario P "estudiantes" (idEstudiante d) cid = Rejected e
      /\ getUsuario P "tutores" (idTutor d) cid = Resolved v) ->
  exists s1,
    try_block P d cid init = (inr e, s1) /\ nuevaTutoria s1 = VUndefined.
Proof.
  intros [[He Ht] | [He Ht]]; run_known; eexists; split; reflexivity.
Qed.

(** X11.  The student is looked at first: when both lookups resolve and the
    student's is falsy, the [try] block throws the 404 of the student,
    whatever the tutor's lookup resolved with; the caller gets the error
    built from it, unless the unlock rejects with [undefined] or [null]. *)
Theorem missing_student_reported_first P d cid estudiante tutor :
  getUsuario P "estudiantes" (idEstudiante d) cid = Resolved estudiante ->
  getUsuario P "tutores" (idTutor d) cid = Resolved tutor ->
  truthy estudiante = false ->
  fst (try_block P d cid init) = inr (Exn (VNum 404) "Estudiante no encontrado")
  /\ (lost (cancelarBloqueo P (idTutor d) (cancelacionPayload d) cid) = false ->
      result P d cid =
        inr (Exn (VNum 404)
                 "No se pudo completar la solicitud: Estudiante no encontrado")).
Proof.
  intros He Ht Hmissing.
  destruct (missing_student_run P d cid _ _ He Ht Hmissing) as (s1 & HT & Hn).
  split; [now rewrite HT |].
  intros Hl; rewrite (abort_result _ _ _ _ _ HT eq_refl Hl); [reflexivity |].
  rewrite Hn; discriminate.
Qed.

(** The theorem at a users service that knows nobody. *)
Lemma missing_student_reported_first_witness :
  result Examples.nobody_known Examples.request Examples.cid =
    inr (Exn (VNum 404)
             "No se pudo completar la solicitud: Estudiante no encontrado").
Proof.
  apply (missing_student_reported_first
           Examples.nobody_known Examples.request Examples.cid VNull VNull);
    reflexivity.
Defined.

(** X12.  [Promise.all] rejects before the users are looked at: when one lookup
    rejects and the other resolves, the [try] block throws the rejection,
    also when the user that was found is missing; the caller gets the
    error built from the rejection, unless the rejection or that of the
    unlock is [undefined] or [null]. *)
Theorem rejected_lookup_hides_missing_user P d cid v e :
  (getUsuario P "estudiantes" (idEstudiante d) cid = Resolved v
   /\ getUsuario P "tutores" (idTutor d) cid = Rejected e)
  \/ (getUsuario P "estudiantes" (idEstudiante d) cid = Rejected e
      /\ getUsuario P "tutores" (idTutor d) cid = Resolved v) ->
  fst (try_block P d cid init) = inr e
  /\ (nullish e = false ->
      lost (cancelarBloqueo P (idTutor d) (cancelacionPayload d) cid) = false ->
      result P d cid =
        inr (Exn (if truthy (prop e "statusCode") then prop e "statusCode"
                  else VNum 500)
                 ("No se pudo completar la solicitud: " ++ to_str P (prop e "message")))).
Proof.
  intros H.
  destruct (rejected_lookup_run P d cid v e H) as (s1 & HT & Hn).
  split; [now rewrite HT |].
  intros He Hl; rewrite (abort_result _ _ _ _ _ HT He Hl); [reflexivity |].
  rewrite Hn; discriminate.
Qed.

(** The theorem at an unknown student and a tutor whose lookup fails. *)
Lemma rejected_lookup_hides_missing_user_witness :
  result Examples.student_unknown_tutor_lookup_fails Examples.request Examples.cid =
    inr (Exn (VNum 503) "No se pudo completar la solicitud: usuarios unavailable").
Proof.
  apply (rejected_lookup_hides_missing_user
           Examples.student_unknown_tutor_lookup_fails
           Examples.request Examples.cid VNull Examples.users_down).
  - left; split; reflexivity.
  - reflexivity.
  - reflexivity.
Defined.

(** *** A save that resolves with nothing *)

Lemma try_block_no_record P d cid r s1 :
  try_block P d cid init = (r, s1) ->
  forall v,
    In (Awaited (Save (tutoriaPendiente d)) (Resolved v)) (trace s1) ->
    nullish v = true ->
    r = inr (TypeError (nullish_name v) "idtutoria")
    /\ existsb is_bloquear (trace s1) = false.
Proof.
  explore.
  all: closed_run.
  all: intros w Hin Hw; no_such_entry Hin; same_entry Hin; try congruence.
  all: split; reflexivity.
Qed.

Lemma nullish_not_marked (v : value) : nullish v = true -> marks_failed v = false.
Proof. now destruct v. Qed.

Lemma pendiente_forward P d cid v :
  In (Awaited (Save (tutoriaPendiente d)) (Resolved v)) (calls P d cid) ->
  In (Awaited (Save (tutoriaPendiente d)) (Resolved v)) (forward_calls P d cid).
Proof.
  destruct (calls_split P d cid) as (t & -> & _ & Hrb & _).
  intros [H | H]%in_app_or; [assumption |].
  rewrite Forall_forall in Hrb.
  now destruct (rollback_not_pendiente d cid _ d v (Hrb _ H)).
Qed.

(** X13.  When the PENDIENTE save resolves with [undefined] or [null], reading
    [idtutoria] throws a [TypeError]: the lock is never asked for and no
    FALLIDA record is saved; the caller gets a 500 with the [TypeError]'s
    message, unless the unlock rejects with [undefined] or [null]. *)
Theorem save_resolving_with_nothing P d cid v :
  In (Awaited (Save (tutoriaPendiente d)) (Resolved v)) (calls P d cid) ->
  nullish v = true ->
  fst (try_block P d cid init) =
    inr (VError "TypeError"
           ("Cannot read properties of " ++ nullish_name v ++ " (reading 'idtutoria')"))
  /\ existsb is_bloquear (calls P d cid) = false
  /\ existsb (is_save_estado "FALLIDA") (calls P d cid) = false
  /\ (lost (cancelarBloqueo P (idTutor d) (cancelacionPayload d) cid) = false ->
      result P d cid =
        inr (Exn (VNum 500)
                 ("No se pudo completar la solicitud: Cannot read properties of "
                    ++ nullish_name v ++ " (reading 'idtutoria')"))).
Proof.
  intros Hin%pendiente_forward Hv.
  rewrite (existsb_calls_forward _ P d cid (rollback_not_bloquear d cid)).
  unfold forward_calls in *.
  destruct (try_block P d cid init) as [r s1] eqn:HT; cbn [fst snd] in *.
  destruct (try_block_no_record _ _ _ _ _ HT v Hin Hv) as [-> Hlock].
  destruct (try_block_nuevaTutoria _ _ _ _ _ HT) as [Hn _].
  pose proof (nullish_not_marked v Hv) as Hm; rewrite <- (Hn v Hin) in Hm.
  split; [reflexivity |]; split; [assumption |]; split.
  - apply existsb_filter_nil; eauto using abort_not_marked.
  - intros Hl; rewrite (abort_result _ _ _ _ _ HT eq_refl Hl); [reflexivity |].
    congruence.
Qed.

(** The theorem at a repository whose [save] resolves with nothing. *)
Lemma save_resolving_with_nothing_witness :
  existsb is_bloquear
    (calls Examples.save_returns_nothing Examples.request Examples.cid) = false
  /\ existsb (is_save_estado "FALLIDA")
       (calls Examples.save_returns_nothing Examples.request Examples.cid) = false
  /\ result Examples.save_returns_nothing Examples.request Examples.cid =
       inr (Exn (VNum 500)
                "No se pudo completar la solicitud: Cannot read properties of undefined (reading 'idtutoria')").
Proof.
  destruct (save_resolving_with_nothing
              Examples.save_returns_nothing Examples.request Examples.cid VUndefined)
    as (_ & Hlock & Hmark & Hres).
  - vm_compute; in_list.
  - reflexivity.
  - split; [exact Hlock |]; split; [exact Hmark |].
    exact (Hres eq_refl).
Defined.

(** *** What is published and what is confirmed *)





Lemma try_block_confirmada_id P d cid r s1 :
  try_block P d cid init = (r, s1) ->
  forall id o,
    In (Awaited (Save (tutoriaConfirmadaPayload id)) o) (trace s1) ->
    exists nueva,
      In (Awaited (Save (tutoriaPendiente d)) (Resolved nueva)) (trace s1)
      /\ id = prop nueva "idtutoria".
Proof.
  explore.
  all: closed_run.
  all: intros id o Hin; no_such_entry Hin; same_entry Hin.
  all: eexists; split; [in_list | reflexivity].
Qed.

(** X15.  The record that is confirmed is the one that was created: a save with
    the [estado] CONFIRMADA has the [idtutoria] of what the PENDIENTE save
    resolved with as its [idTutoria] (be it [undefined]) and a null
    [error]. *)
Theorem confirmation_uses_created_id P d cid p o :
  In (Awaited (Save p) o) (calls P d cid) ->
  prop p "estado" = VStr "CONFIRMADA" ->
  exists nueva,
    In (Awaited (Save (tutoriaPendiente d)) (Resolved nueva)) (calls P d cid)
    /\ p = VObj [("idTutoria", prop nueva "idtutoria");
                 ("estado", VStr "CONFIRMADA");
                 ("error", VNull)].
Proof.
  intros Hin Hestado.
  destruct (calls_entries _ _ _ _ Hin) as [Hx | Hx]; inversion Hx; subst;
    try discriminate Hestado.
  apply confirmed_forward in Hin; unfold forward_calls in Hin.
  destruct (calls_split P d cid) as (t & -> & _); unfold forward_calls.
  destruct (try_block P d cid init) as [r s1] eqn:HT; cbn [snd] in *.
  destruct (try_block_confirmada_id _ _ _ _ _ HT _ _ Hin) as (nueva & Hp & ->).
  exists nueva; split; [apply in_or_app; now left | reflexivity].
Qed.

(** The theorem at a repository whose rows have no [idtutoria]: the
    confirmation is sent with an [undefined] key. *)
Lemma confirmation_uses_created_id_witness :
  exists nueva,
    In (Awaited (Save (tutoriaPendiente Examples.request)) (Resolved nueva))
       (calls (Examples.with_save Examples.stored_camel Examples.all_ok)
              Examples.request Examples.cid)
    /\ VObj [("idTutoria", VUndefined); ("estado", VStr "CONFIRMADA"); ("error", VNull)]
       = VObj [("idTutoria", prop nueva "idtutoria");
               ("estado", VStr "CONFIRMADA");
               ("error", VNull)].
Proof.
  apply (confirmation_uses_created_id
           (Examples.with_save Examples.stored_camel Examples.all_ok)
           Examples.request Examples.cid
           (VObj [("idTutoria", VUndefined); ("estado", VStr "CONFIRMADA");
                  ("error", VNull)])
           (Resolved (VObj [("idTutoria", VNum 7); ("estado", VStr "CONFIRMADA")]))).
  - vm_compute; in_list.
  - reflexivity.
Defined.

(** *** The order of the compensations *)

Lemma forward_existsb_false (f : entry -> bool) P d cid tr :
  (forall x, forward_entry P d cid x -> f x = false) ->
  Forall (forward_entry P d cid) tr ->
  existsb f tr = false.
Proof.
  intros Hf Ht; apply existsb_filter_nil; eauto using forward_filter_nil.
Qed.

(** X16.  The FALLIDA record is saved after the unlock was awaited and
    reported, whether the unlock resolved or rejected, and nothing but the
    report of the save comes after it; there is no such report when the
    save rejects with [undefined] or [null]. *)
Theorem unlock_precedes_mark_failed P d cid :
  existsb (is_save_estado "FALLIDA") (calls P d cid) = true ->
  exists before o e3 e4 fallida o' after,
    calls P d cid =
      before ++
        [Awaited (CancelarBloqueo (idTutor d) (cancelacionPayload d) cid) o;
         e3; e4; Awaited (Save fallida) o'] ++ after
    /\ existsb (is_save_estado "FALLIDA") before = false
    /\ existsb is_cancelar before = false
    /\ prop fallida "estado" = VStr "FALLIDA"
    /\ tracked cid (unlock_report P o) ERROR e3
    /\ tracked cid "Marcando tutoría como FALLIDA..." ERROR e4
    /\ if lost o' then after = []
       else exists e5, after = [e5] /\ tracked cid (mark_report P o') ERROR e5.
Proof.
  destruct (try_block P d cid init) as [[v | error] s1] eqn:HT.
  - destruct (run_success _ _ _ _ _ HT) as [_ ->]; intros H.
    rewrite (forward_existsb_false _ P d cid) in H
      by eauto using try_block_entries, forward_not_fallida.
    discriminate H.
  - destruct (run_abort _ _ _ _ _ HT) as (t & thrown & _ & -> & Ht).
    pose proof (try_block_entries _ _ _ _ _ HT) as Hfw.
    rewrite existsb_app, (forward_existsb_false _ P d cid)
      by eauto using forward_not_fallida.
    cbn [orb]; intros Hyes.
    assert (Hbefore : forall e1 e2,
               tracked cid ("ERROR: " ++ to_str P (prop error "message")) ERROR e1 ->
               tracked cid "Compensación: cancelando bloqueo de agenda..." ERROR e2 ->
               existsb (is_save_estado "FALLIDA") (trace s1 ++ [e1; e2]) = false
               /\ existsb is_cancelar (trace s1 ++ [e1; e2]) = false).
    { intros e1 e2 [] []; rewrite !existsb_app.
      rewrite (forward_existsb_false (is_save_estado "FALLIDA") P d cid)
        by eauto using forward_not_fallida.
      rewrite (forward_existsb_false is_cancelar P d cid)
        by eauto using forward_not_cancelar.
      split; reflexivity. }
    revert Hyes.
    destruct Ht as [Hn | e1 e2 cancelError _ H1 H2 _ _
                    | e1 e2 e3 o rest thrown' _ H1 H2 _ _ H3 Hrest].
    + discriminate.
    + destruct H1, H2; discriminate.
    + destruct (Hbefore e1 e2 H1 H2) as [Hb1 Hb2].
      destruct Hrest as [Hno | e4 e5 o' _ _ Hl H4 H5 | e4 compError _ Hc Hn H4].
      * destruct H1, H2, H3; discriminate.
      * intros _.
        exists (trace s1 ++ [e1; e2]), o, e3, e4,
          (tutoriaFallidaPayload (prop (nuevaTutoria s1) "idtutoria")
             (prop error "message")), o', [e5].
        rewrite <- app_assoc, Hl; repeat split; eauto.
      * intros _.
        exists (trace s1 ++ [e1; e2]), o, e3, e4,
          (tutoriaFallidaPayload (prop (nuevaTutoria s1) "idtutoria")
             (prop error "message")), (Rejected compError), [].
        rewrite <- app_assoc; cbn [lost]; rewrite Hn; repeat split; eauto.
Qed.

(** The theorem at collaborators whose unlock rejects: the FALLIDA save is
    attempted all the same. *)
Lemma unlock_precedes_mark_failed_witness :
  exists before o e3 e4 fallida o' after,
    calls Examples.rollback_fails Examples.request Examples.cid =
      before ++
        [Awaited (CancelarBloqueo (VNum 22) (cancelacionPayload Examples.request)
                    Examples.cid) o;
         e3; e4; Awaited (Save fallida) o'] ++ after
    /\ existsb (is_save_estado "FALLIDA") before = false
    /\ existsb is_cancelar before = false
    /\ prop fallida "estado" = VStr "FALLIDA"
    /\ tracked Examples.cid (unlock_report Examples.rollback_fails o) ERROR e3
    /\ tracked Examples.cid "Marcando tutoría como FALLIDA..." ERROR e4
    /\ if lost o' then after = []
       else exists e5,
           after = [e5]
           /\ tracked Examples.cid (mark_report Examples.rollback_fails o') ERROR e5.
Proof.
  apply (unlock_precedes_mark_failed
           Examples.rollback_fails Examples.request Examples.cid).
  vm_compute; reflexivity.
Defined.

(** *** The status code of the error *)

Lemma caller_error_status P (error : value) :
  truthy (prop (caller_error P error) "statusCode") = true.
Proof.
  unfold caller_error, js_or.
  change (prop (Exn ?sc ?m) "statusCode") with sc.
  now destruct (truthy (prop error "statusCode")) eqn:E.
Qed.

(** X17.  When no collaborator fails with [undefined] or [null], the error
    thrown to the caller has a truthy [statusCode]: a cause without one,
    or with a falsy one, gives 500. *)
Theorem thrown_status_code_is_truthy P d cid err :
  existsb failed_with_nothing (calls P d cid) = false ->
  result P d cid = inr err ->
  truthy (prop err "statusCode") = true.
Proof.
  intros Hok Hr.
  destruct (result_inr_abort _ _ _ _ Hr) as (error & s1 & HT).
  assert (Hfst : fst (try_block P d cid init) = inr error) by now rewrite HT.
  destruct (clean_abort _ _ _ _ Hfst Hok) as [_ Hres].
  assert (err = caller_error P error) as -> by congruence.
  apply caller_error_status.
Qed.

(** The theorem at a repository that refuses the confirmation with an error
    that has no status code. *)
Lemma thrown_status_code_is_truthy_witness :
  truthy (prop (Exn (VNum 500)
                    "No se pudo completar la solicitud: connection terminated")
               "statusCode")
  = true.
Proof.
  apply (thrown_status_code_is_truthy
           Examples.confirm_fails Examples.request Examples.cid).
  - vm_compute; reflexivity.
  - reflexivity.
Defined.

(** *** The unlock and the lock *)

(** X18.  The unlock names what the lock named: the same tutor, the same start
    and duration of the slot, the same correlation id. *)
Theorem unlock_names_the_locked_slot P d cid t p c o t' p' c' o' :
  In (Awaited (BloquearAgenda t p c) o) (calls P d cid) ->
  In (Awaited (CancelarBloqueo t' p' c') o') (calls P d cid) ->
  t' = t
  /\ prop p' "fechaInicio" = prop p "fechaInicio"
  /\ prop p' "duracionMinutos" = prop p "duracionMinutos"
  /\ c' = c.
Proof.
  intros [Hl | Hl]%calls_entries [Hu | Hu]%calls_entries;
    inversion Hl; inversion Hu; subst; repeat split.
Qed.

(** The theorem at a repository that refuses the confirmation. *)
Lemma unlock_names_the_locked_slot_witness :
  VNum 22 = VNum 22
  /\ prop (cancelacionPayload Examples.request) "fechaInicio" =
     prop (bloqueoPayload Examples.request) "fechaInicio"
  /\ prop (cancelacionPayload Examples.request) "duracionMinutos" =
     prop (bloqueoPayload Examples.request) "duracionMinutos"
  /\ Examples.cid = Examples.cid.
Proof.
  apply (unlock_names_the_locked_slot
           Examples.confirm_fails Examples.request Examples.cid
           (VNum 22) (bloqueoPayload Examples.request) Examples.cid (Resolved VUndefined)
           (VNum 22) (cancelacionPayload Examples.request) Examples.cid
           (Resolved VUndefined)).
  - vm_compute; in_list.
  - vm_compute; in_list.
Defined.

(** *** The event of the failure *)

(** X19.  When the [try] block throws an [error] that is not [undefined]
    or [null], the first event of status ERROR is the one that carries the
    text of [error.message]. *)
Theorem failure_is_first_error_event P d cid error :
  fst (try_block P d cid init) = inr error ->
  nullish error = false ->
  exists before e1 after,
    calls P d cid = before ++ e1 :: after
    /\ count_status ERROR before = 0%nat
    /\ tracked cid ("ERROR: " ++ to_str P (prop error "message")) ERROR e1.
Proof.
  destruct (try_block P d cid init) as [r s1] eqn:HT; cbn [fst]; intros -> He.
  destruct (run_abort _ _ _ _ _ HT) as (t & thrown & _ & -> & Ht).
  pose proof (forward_no_error_event _ _ _ _ (try_block_entries _ _ _ _ _ HT)) as H0.
  destruct Ht as [Hn | e1 e2 cancelError _ H1 _ _ _
                  | e1 e2 e3 o rest thrown' _ H1 _ _ _ _ _].
  - congruence.
  - exists (trace s1), e1; eexists; repeat split; eassumption.
  - exists (trace s1), e1; eexists; repeat split; eassumption.
Qed.

(** The theorem at an agenda that refuses the lock. *)
Lemma failure_is_first_error_event_witness :
  exists before e1 after,
    calls Examples.lock_refused Examples.request Examples.cid = before ++ e1 :: after
    /\ count_status ERROR before = 0%nat
    /\ tracked Examples.cid ("ERROR: " ++ "agenda unavailable") ERROR e1.
Proof.
  exact (failure_is_first_error_event
           Examples.lock_refused Examples.request Examples.cid Examples.agenda_down
           eq_refl eq_refl).
Defined.

(** *** The compensations of a failure that has a value *)

(** X20.  In an execution whose [try] block throws and in which no
    collaborator fails with [undefined] or [null], a FALLIDA record is
    saved if and only if the PENDIENTE save resolved with a value whose
    [idtutoria] is truthy; when it is not saved, the trace ends with the
    unlock and its report, so that no event says that the record was left
    as it was. *)
Theorem mark_failed_guard P d cid error :
  fst (try_block P d cid init) = inr error ->
  existsb failed_with_nothing (calls P d cid) = false ->
  (existsb (is_save_estado "FALLIDA") (calls P d cid) = true <->
     exists nueva,
       In (Awaited (Save (tutoriaPendiente d)) (Resolved nueva)) (calls P d cid)
       /\ truthy (prop nueva "idtutoria") = true)
  /\ (existsb (is_save_estado "FALLIDA") (calls P d cid) = false ->
        exists forward e1 e2 o e3,
          calls P d cid =
            forward ++
              [e1; e2;
               Awaited (CancelarBloqueo (idTutor d) (cancelacionPayload d) cid) o;
               e3]
          /\ Forall (forward_entry P d cid) forward
          /\ tracked cid ("ERROR: " ++ to_str P (prop error "message")) ERROR e1
          /\ tracked cid "Compensación: cancelando bloqueo de agenda..." ERROR e2
          /\ tracked cid (unlock_report P o) ERROR e3).
Proof.
  intros HT Hok.
  destruct (clean_abort _ _ _ _ HT Hok) as [He _].
  destruct (try_block P d cid init) as [r s1] eqn:H; cbn [fst] in HT; subst r.
  rewrite (abort_fallida_saved _ _ _ _ _ H Hok).
  destruct (try_block_nuevaTutoria _ _ _ _ _ H) as [_ Hn].
  destruct (run_abort _ _ _ _ _ H) as (t & thrown & _ & Hcalls & Ht).
  destruct (marks_failed (nuevaTutoria s1)) eqn:Hm.
  - split; [| discriminate].
    split; [intros _ | reflexivity].
    rewrite marks_failed_idtutoria in Hm.
    exists (nuevaTutoria s1); split; [| assumption].
    destruct Hn as [Hn | Hn]; [rewrite Hn in Hm; discriminate Hm |].
    rewrite Hcalls; apply in_or_app; now left.
  - split.
    + split; [discriminate |].
      intros (nueva & Hin & Hid).
      rewrite <- (abort_pendiente _ _ _ _ _ _ H Hin), <- marks_failed_idtutoria in Hid.
      congruence.
    + intros _.
      rewrite Hcalls, existsb_app in Hok; apply orb_false_iff in Hok as [_ Hrb].
      destruct Ht as [Hn' | e1 e2 cancelError _ [] [] _ Hn'
                      | e1 e2 e3 o rest thrown' _ H1 H2 _ _ H3 Hrest].
      * congruence.
      * cbn in Hrb; rewrite Hn' in Hrb; discriminate Hrb.
      * destruct Hrest as [_ | e4 e5 o' Hyes _ _ _ _ | e4 compError Hyes _ _ _];
          [| congruence | congruence].
        exists (trace s1), e1, e2, o, e3; rewrite Hcalls; repeat split;
          eauto using try_block_entries.
Qed.

(** The theorem at a record without [idtutoria]: no FALLIDA save. *)
Lemma mark_failed_guard_witness :
  existsb (is_save_estado "FALLIDA")
    (calls Examples.lock_fails_no_id Examples.request Examples.cid) = false
  /\ ~ (exists nueva,
          In (Awaited (Save (tutoriaPendiente Examples.request)) (Resolved nueva))
             (calls Examples.lock_fails_no_id Examples.request Examples.cid)
          /\ truthy (prop nueva "idtutoria") = true).
Proof.
  split; [vm_compute; reflexivity |].
  intros Hex.
  apply (mark_failed_guard
           Examples.lock_fails_no_id Examples.request Examples.cid
           Examples.agenda_down eq_refl eq_refl) in Hex.
  vm_compute in Hex; discriminate Hex.
Defined.

(** X21.  In an execution whose [try] block throws [error] and in which no
    collaborator fails with [undefined] or [null], the caller gets the
    error built from [error] alone, also when the unlock rejects and the
    save of the FALLIDA record rejects too: its [statusCode] is [error]'s
    (500 when falsy) and its [message] the text of [error.message] behind
    the fixed prefix. *)
Theorem rollback_failures_isolated P d cid error :
  fst (try_block P d cid init) = inr error ->
  existsb failed_with_nothing (calls P d cid) = false ->
  unlock_rejected (calls P d cid) = true ->
  mark_failed_rejected (calls P d cid) = true ->
  result P d cid =
    inr (Exn (if truthy (prop error "statusCode") then prop error "statusCode"
              else VNum 500)
             ("No se pudo completar la solicitud: " ++ to_str P (prop error "message"))).
Proof.
  intros HT Hok _ _; exact (proj2 (clean_abort _ _ _ _ HT Hok)).
Qed.

(** The theorem at collaborators whose compensations both fail: the error
    is the one of the refused confirmation. *)
Lemma rollback_failures_isolated_witness :
  unlock_rejected (calls Examples.rollback_fails Examples.request Examples.cid) = true
  /\ mark_failed_rejected
       (calls Examples.rollback_fails Examples.request Examples.cid) = true
  /\ result Examples.rollback_fails Examples.request Examples.cid =
       inr (Exn (VNum 500) "No se pudo completar la solicitud: deadlock detected").
Proof.
  split; [vm_compute; reflexivity |]; split; [vm_compute; reflexivity |].
  exact (rollback_failures_isolated
           Examples.rollback_fails Examples.request Examples.cid Examples.deadlock
           eq_refl eq_refl eq_refl eq_refl).
Defined.
